(** * Alert dispatch pipeline of the notification service

    Shallow embedding of
    - [services/subscription.service.ts]  (getUserContext, canSendNotification),
    - [services/deduplication.service.ts] (shouldSendAlert over Redis SET NX EX,
                                           retryStrategy),
    - [kafka/consumer.ts]                 (retry, eachMessage),
    - [services/{email,sms,call,webhook}.service.ts] (the channel adapters),
    - [kafka/producer.ts]                 (produceAlertEvent),
    - [api/routes.ts]                     (the test routes),
    - [app.ts]                            (environment check and start-up).

    Effects (provider calls, log lines that matter, timers, the produced audit
    record) are collected in an explicit trace; exceptions are an explicit
    outcome; the Redis store and the relational store are explicit state. *)

From Stdlib Require Import Ascii String List ZArith Bool Lia.
Import ListNotations.
Open Scope string_scope.
Set Warnings "-register-all".

(** ** JavaScript values used by the code *)

(** The JSON values produced by [JSON.parse] (used for the opaque
    [subscription.features] column and for the raw inbound event). *)
Inductive json : Type :=
| JNull
| JBool (b : bool)
| JNum (z : Z)
| JStr (s : string)
| JArr (l : list json)
| JObj (l : list (string * json)).

(** JavaScript truthiness of a JSON value. *)
Definition json_truthy (v : json) : bool :=
  match v with
  | JNull => false
  | JBool b => b
  | JNum z => negb (Z.eqb z 0)
  | JStr s => negb (String.eqb s "")
  | JArr _ | JObj _ => true
  end.

(** Property read [v.k]: objects look the key up, every other value yields
    [undefined] (here [None]). *)
Definition get_prop (k : string) (v : json) : option json :=
  match v with
  | JObj l =>
      match find (fun kv => String.eqb (fst kv) k) l with
      | Some kv => Some (snd kv)
      | None => None
      end
  | _ => None
  end.

(** [v === true] *)
Definition is_json_true (o : option json) : bool :=
  match o with
  | Some (JBool true) => true
  | _ => false
  end.

(** An optional string field ([string | null | undefined]) and the truthiness
    of a string: the empty string is falsy. *)
Definition truthy_str (o : option string) : option string :=
  match o with
  | Some s => if String.eqb s "" then None else Some s
  | None => None
  end.

(** [a || b] on optional strings. *)
Definition js_or (a b : option string) : option string :=
  match truthy_str a with
  | Some s => Some s
  | None => b
  end.

(** [a || 'default'] *)
Definition js_or_default (a : option string) (d : string) : string :=
  match truthy_str a with
  | Some s => s
  | None => d
  end.

(** ** Prisma enums *)

Inductive SubscriptionPlan : Type := FREE | BASIC | PRO.

Inductive Severity : Type := LOW | MEDIUM | HIGH | CRITICAL.

Definition SubscriptionPlan_eqb (a b : SubscriptionPlan) : bool :=
  match a, b with
  | FREE, FREE | BASIC, BASIC | PRO, PRO => true
  | _, _ => false
  end.

Definition Severity_eqb (a b : Severity) : bool :=
  match a, b with
  | LOW, LOW | MEDIUM, MEDIUM | HIGH, HIGH | CRITICAL, CRITICAL => true
  | _, _ => false
  end.

(** ** subscription.service.ts *)

(** Rows of the relational store, as Prisma returns them with
    [include: { subscription: true, notificationSettings: true }]. *)
Record SubscriptionRow : Type := {
  sub_plan : SubscriptionPlan;
  sub_features : json
}.

Record NotificationSettingsRow : Type := {
  ns_phoneNumber : option string;
  ns_emailEnabled : bool;
  ns_phoneEnabled : bool;
  ns_minSeverityForCall : Severity
}.

Record UserRow : Type := {
  u_id : string;
  u_email : option string;
  u_subscription : option SubscriptionRow;
  u_notificationSettings : option NotificationSettingsRow
}.

(** Outcome of [prisma.user.findUnique]: the row (or [null]), or a rejected
    promise (connection failure, timeout, ...). *)
Inductive DbRead : Type :=
| DbRow (r : option UserRow)
| DbError.

(** The relational store seen by the service: one read per user id. *)
Definition Db := string -> DbRead.

Record Settings : Type := {
  emailEnabled : bool;
  phoneEnabled : bool;
  minSeverityForCall : Severity
}.

Record UserContext : Type := {
  userId : string;
  email : option string;
  phone : option string;
  plan : SubscriptionPlan;
  features : json;
  settings : Settings
}.

(** [getUserContext]: the row mapped to a context, [null] for a missing row,
    and [null] as well when the read throws (the [catch] branch). *)
Definition getUserContext (db : Db) (uid : string) : option UserContext :=
  match db uid with
  | DbError => None
  | DbRow None => None
  | DbRow (Some user) =>
      let ns := u_notificationSettings user in
      let sub := u_subscription user in
      Some {|
        userId := u_id user;
        email := u_email user;
        phone :=
          match ns with
          | Some n => truthy_str (ns_phoneNumber n)
          | None => None
          end;
        plan :=
          match sub with
          | Some s => sub_plan s
          | None => FREE
          end;
        features :=
          match sub with
          | Some s => if json_truthy (sub_features s) then sub_features s else JObj []
          | None => JObj []
          end;
        settings := {|
          emailEnabled :=
            match ns with Some n => ns_emailEnabled n | None => true end;
          phoneEnabled :=
            match ns with Some n => ns_phoneEnabled n | None => false end;
          minSeverityForCall :=
            match ns with Some n => ns_minSeverityForCall n | None => CRITICAL end
        |}
      |}
  end.

Inductive Channel : Type := EMAIL | SMS | VOICE.

(** [canSendNotification] *)
Definition canSendNotification (context : UserContext) (channel : Channel)
    (severity : Severity) : bool :=
  let p := plan context in
  let s := settings context in
  let f := features context in
  match channel with
  | EMAIL => emailEnabled s
  | SMS =>
      if negb (phoneEnabled s) then false
      else if SubscriptionPlan_eqb p PRO then true
      else if json_truthy f && is_json_true (get_prop "sms" f) then true
      else false
  | VOICE =>
      if negb (SubscriptionPlan_eqb p PRO) then false
      else if negb (Severity_eqb severity CRITICAL) then false
      else true
  end.

(** ** deduplication.service.ts *)

Definition DEDUP_TTL_SECONDS : Z := 3600.

(** The ioredis client: its connection [status] (['ready'], ['connecting'],
    ['reconnecting'], ['end'], ...), whether commands currently reach the
    server, and the server's key space as key / expiry-second pairs (the
    stored value is always ['sent'] and is not kept). *)
Record RedisClient : Type := {
  status : string;
  reachable : bool;
  store : list (string * Z)
}.

Inductive SetResult : Type :=
| SetOK (store' : list (string * Z))
| SetNull
| SetRejected.

(** A key is present at second [now] when it was written with an expiry
    later than [now]. *)
Definition key_live (now : Z) (key : string) (st : list (string * Z)) : bool :=
  existsb (fun kv => String.eqb (fst kv) key && Z.ltb now (snd kv)) st.

(** [redis.set(key, 'sent', 'EX', ttl, 'NX')] *)
Definition redis_set_nx_ex (c : RedisClient) (now : Z) (key : string) (ttl : Z)
    : SetResult :=
  if negb (reachable c) then SetRejected
  else if key_live now key (store c) then SetNull
  else SetOK ((key, (now + ttl)%Z)
                :: filter (fun kv => negb (String.eqb (fst kv) key)) (store c)).

Definition with_store (c : RedisClient) (st : list (string * Z)) : RedisClient :=
  {| status := status c; reachable := reachable c; store := st |}.

Definition dedup_key (uid txId : string) : string :=
  "alert:" ++ uid ++ ":" ++ txId.

(** [shouldSendAlert]: the module-level [redis] handle is [None] when the
    constructor threw. Returns the verdict and the client after the call. *)
Definition shouldSendAlert (redis : option RedisClient) (now : Z)
    (uid txId : string) : bool * option RedisClient :=
  match redis with
  | None => (true, redis)
  | Some c =>
      if negb (String.eqb (status c) "ready") then (true, redis)
      else
        let key := dedup_key uid txId in
        match redis_set_nx_ex c now key DEDUP_TTL_SECONDS with
        | SetOK st => (true, Some (with_store c st))
        | SetNull => (false, redis)
        | SetRejected => (true, redis)
        end
  end.

(** ** Effects and the error-and-trace monad *)

Inductive Medium : Type := MEmail | MSms | MWebhook | MCall.

Record Channels : Type := {
  ch_email : bool;
  ch_sms : bool;
  ch_webhook : bool;
  ch_call : bool
}.

(** The record given to [produceAlertEvent]. *)
Record AlertEvent : Type := {
  alertId : string;
  a_userId : string;
  a_severity : option Severity;
  channels : Channels;
  sourceEvent : json;
  timestamp : string
}.

Inductive effect : Type :=
| ProviderCall (m : Medium) (target content : string)
    (** [transporter.sendMail], [messages.create], [calls.create] *)
| WebhookPost (url : string) (headers : list (string * string)) (body : string)
    (** [axios.post] *)
| LoggedOnly (m : Medium) (target content : string)
    (** an unconfigured adapter logs instead of delivering *)
| DeliveryFailed (m : Medium) (target : string)
    (** an adapter's [catch] (or a non-2xx webhook answer) logging the failure *)
| Wait (ms : Z)
    (** [setTimeout] in [retry] *)
| AuditSend (rec : AlertEvent)
    (** [producer.send] to the alerts topic *)
| ProcessingFailed
    (** the [catch] of [eachMessage] *).

Inductive outcome (A : Type) : Type :=
| Ok (a : A)
| Throw (e : string)
| NoFuel.
Arguments Ok {A} a.
Arguments Throw {A} e.
Arguments NoFuel {A}.

(** A computation appends effects to the trace and ends normally or by an
    exception. *)
Definition M (A : Type) : Type := list effect -> list effect * outcome A.

Definition ret {A} (a : A) : M A := fun tr => (tr, Ok a).

Definition bind {A B} (m : M A) (f : A -> M B) : M B :=
  fun tr =>
    match m tr with
    | (tr', Ok a) => f a tr'
    | (tr', Throw e) => (tr', Throw e)
    | (tr', NoFuel) => (tr', NoFuel)
    end.

Definition tell (e : effect) : M unit := fun tr => ((tr ++ [e])%list, Ok tt).

Definition throw {A} (e : string) : M A := fun tr => (tr, Throw e).

Notation "x <- m ;; k" := (bind m (fun x => k))
  (at level 61, m at next level, right associativity).
Notation "m ;; k" := (bind m (fun _ => k))
  (at level 61, right associativity).

(** ** retry (kafka/consumer.ts) *)

Definition MAX_RETRIES : nat := 3.
Definition BACKOFF_BASE_MS : Z := 2000.

(** The [while (true)] loop of [retry]. The operation [fn] is given the
    number of earlier invocations: it stands for the closure together with
    the external world it observes at that invocation. [fuel] bounds the
    loop; [retry] gives [S retries], which never runs out
    ([retry_loop_fuel_enough] below). *)
Fixpoint retry_loop {A} (fuel : nat) (fn : nat -> M A) (attempt retries : nat)
    (backoffMs : Z) : M A :=
  match fuel with
  | O => fun tr => (tr, NoFuel)
  | S fuel' => fun tr =>
      match fn attempt tr with
      | (tr1, Ok a) => (tr1, Ok a)
      | (tr1, Throw e) =>
          let attempt' := S attempt in
          if Nat.ltb retries attempt' then (tr1, Throw e)
          else retry_loop fuel' fn attempt' retries (backoffMs * 2)%Z
                 (tr1 ++ [Wait backoffMs])%list
      | (tr1, NoFuel) => (tr1, NoFuel)
      end
  end.

Definition retry {A} (fn : nat -> M A) (retries : nat) (backoffMs : Z) : M A :=
  retry_loop (S retries) fn 0 retries backoffMs.

(** [retry(fn)] with the defaults. *)
Definition retry_default {A} (fn : nat -> M A) : M A :=
  retry fn MAX_RETRIES BACKOFF_BASE_MS.

(** [backoffMs] is a JavaScript number, doubled in [Z] here: the two agree
    while it stays below 2^53. [Wait d] is the delay passed to
    [setTimeout]; Node waits [d] ms for [1 <= d <= TIMEOUT_MAX] and 1 ms
    for any other delay. *)
Definition TIMEOUT_MAX : Z := 2147483647.

Definition node_timer_delay (d : Z) : Z :=
  if (Z.leb 1 d && Z.leb d TIMEOUT_MAX)%bool then d else 1.

(** ** Channel adapters and the consumer *)

(** What the process environment configures. *)
Record Config : Type := {
  smtp_configured : bool;          (** SMTP_HOST, SMTP_USER and SMTP_PASS set *)
  twilio_sms_configured : bool;    (** [twilioClient] of sms.service.ts built *)
  TWILIO_PHONE_NUMBER : option string;
  twilio_call_configured : bool;   (** [client] of call.service.ts built *)
  WEBHOOK_SIGNING_SECRET : option string
}.

(** The answer of a provider to one request: a resolved call (with the HTTP
    status, which only the webhook reads) or a rejected promise (timeout,
    network error, 5xx turned into an exception by the SDK, ...). *)
Inductive ProviderResult : Type :=
| PrOk (httpStatus : Z)
| PrErr (reason : string).

(** The inbound event after [JSON.parse], with the fields the consumer reads
    (strings, or absent) and the parsed value itself. *)
Record AnomalyEvent : Type := {
  ev_userId : option string;
  ev_meta_user_id : option string;
  ev_data_tx_id : option string;
  ev_tx_id : option string;
  ev_id : option string;
  ev_severity : option Severity;
  ev_email : option string;
  ev_phone : option string;
  ev_webhookUrl : option string;
  ev_raw : json
}.

(** Everything [eachMessage] observes besides the Redis client: the store,
    the clocks, the configuration, the providers' answers (per medium and per
    invocation inside one [retry]) and whether the Kafka producer accepts the
    audit record. *)
Record Env : Type := {
  db : Db;
  redis_now : Z;              (** server second used for key expiry *)
  clock_ms : string;          (** Date.now().toString() *)
  clock_iso : string;         (** new Date().toISOString() *)
  config : Config;
  provider : Medium -> nat -> ProviderResult;
  producer_up : bool
}.

Definition severity_to_string (s : option Severity) : string :=
  match s with
  | Some LOW => "LOW"
  | Some MEDIUM => "MEDIUM"
  | Some HIGH => "HIGH"
  | Some CRITICAL => "CRITICAL"
  | None => "undefined"
  end.

(** [headers[k] = v] on a [Record<string, string>] (insertion ordered). *)
Definition hdr_set (k v : string) (h : list (string * string))
    : list (string * string) :=
  if existsb (fun kv => String.eqb (fst kv) k) h
  then map (fun kv => if String.eqb (fst kv) k then (k, v) else kv) h
  else (h ++ [(k, v)])%list.


(** ** The body axios puts on the wire *)

(** A character of a [string] stands for one UTF-16 code unit of the
    JavaScript string (code units below 256). *)
Definition ascii_in (c : ascii) (l : list ascii) : bool := existsb (Ascii.eqb c) l.

(** [JSONWhiteSpace]: tab, line feed, carriage return, space. *)
Definition json_ws (c : ascii) : bool := ascii_in c ["009"; "010"; "013"; " "]%char.

Fixpoint skip_json_ws (s : string) : string :=
  match s with
  | String c s' => if json_ws c then skip_json_ws s' else s
  | EmptyString => EmptyString
  end.

Definition is_digit (c : ascii) : bool :=
  Nat.leb 48 (nat_of_ascii c) && Nat.leb (nat_of_ascii c) 57.

Definition is_hex_digit (c : ascii) : bool :=
  let n := nat_of_ascii c in
  is_digit c || (Nat.leb 65 n && Nat.leb n 70) || (Nat.leb 97 n && Nat.leb n 102).

Fixpoint skip_digits (s : string) : string :=
  match s with
  | String c s' => if is_digit c then skip_digits s' else s
  | EmptyString => EmptyString
  end.

(** [[0-9]+], returning the rest of the input. *)
Definition lex_digits1 (s : string) : option string :=
  match s with
  | String c s' => if is_digit c then Some (skip_digits s') else None
  | EmptyString => None
  end.

(** [JSONNumber]: [-? (0 | [1-9][0-9]* ) (. [0-9]+)? ([eE] [+-]? [0-9]+)?]. *)
Definition lex_number (s : string) : option string :=
  let s1 := match s with
            | String c s' => if Ascii.eqb c "-"%char then s' else s
            | EmptyString => s
            end in
  let o2 := match s1 with
            | String c s' => if Ascii.eqb c "0"%char then Some s' else lex_digits1 s1
            | EmptyString => None
            end in
  match o2 with
  | None => None
  | Some s2 =>
      let o3 := match s2 with
                | String c s' => if Ascii.eqb c "."%char then lex_digits1 s' else Some s2
                | EmptyString => Some s2
                end in
      match o3 with
      | None => None
      | Some s3 =>
          match s3 with
          | String c s' =>
              if Ascii.eqb c "e"%char || Ascii.eqb c "E"%char then
                lex_digits1 (match s' with
                             | String d s'' =>
                                 if Ascii.eqb d "+"%char || Ascii.eqb d "-"%char
                                 then s'' else s'
                             | EmptyString => s'
                             end)
              else Some s3
          | EmptyString => Some s3
          end
      end
  end.

(** The rest of a [JSONString] after its opening quote: characters other
    than the double quote, the backslash and U+0000..U+001F, and the
    escapes: a backslash followed by a double quote, a backslash, [/], [b],
    [f], [n], [r], [t], or [u] and four hexadecimal digits. *)
Fixpoint lex_string_rest (s : string) : option string :=
  match s with
  | EmptyString => None
  | String c s' =>
      if Ascii.eqb c "034"%char then Some s'
      else if Ascii.eqb c "092"%char then
        match s' with
        | EmptyString => None
        | String e s'' =>
            if ascii_in e ["034"; "092"; "/"; "b"; "f"; "n"; "r"; "t"]%char
            then lex_string_rest s''
            else if Ascii.eqb e "u"%char then
              match s'' with
              | String h1 (String h2 (String h3 (String h4 t))) =>
                  if is_hex_digit h1 && is_hex_digit h2 && is_hex_digit h3 && is_hex_digit h4
                  then lex_string_rest t else None
              | _ => None
              end
            else None
        end
      else if Nat.ltb (nat_of_ascii c) 32 then None
      else lex_string_rest s'
  end.

(** The literal [k] at the start of [s]. *)
Fixpoint lex_keyword (k s : string) : option string :=
  match k, s with
  | EmptyString, _ => Some s
  | String a k', String b s' => if Ascii.eqb a b then lex_keyword k' s' else None
  | String _ _, EmptyString => None
  end.

(** A [JSONValue] preceded by white space, returning the rest of the
    input. Every nesting level consumes a ['['] or a ['{'], and every
    further element or member consumes a [','], so a bound of
    [String.length s + 1] levels and [String.length] loop rounds is never
    reached on a well-formed input. *)
Fixpoint lex_value (depth : nat) (s : string) : option string :=
  match depth with
  | O => None
  | S d =>
      match skip_json_ws s with
      | EmptyString => None
      | String c s' =>
          if Ascii.eqb c "034"%char then lex_string_rest s'
          else if Ascii.eqb c "["%char then
            let fix elements (n : nat) (r : string) : option string :=
              match n with
              | O => None
              | S n' =>
                  match lex_value d r with
                  | None => None
                  | Some r1 =>
                      match skip_json_ws r1 with
                      | String c1 r2 =>
                          if Ascii.eqb c1 ","%char then elements n' r2
                          else if Ascii.eqb c1 "]"%char then Some r2 else None
                      | EmptyString => None
                      end
                  end
              end in
            match skip_json_ws s' with
            | String c1 r => if Ascii.eqb c1 "]"%char then Some r
                             else elements (String.length s') s'
            | EmptyString => None
            end
          else if Ascii.eqb c "{"%char then
            let fix members (n : nat) (r : string) : option string :=
              match n with
              | O => None
              | S n' =>
                  match skip_json_ws r with
                  | String q r1 =>
                      if Ascii.eqb q "034"%char then
                        match lex_string_rest r1 with
                        | None => None
                        | Some r2 =>
                            match skip_json_ws r2 with
                            | String col r3 =>
                                if Ascii.eqb col ":"%char then
                                  match lex_value d r3 with
                                  | None => None
                                  | Some r4 =>
                                      match skip_json_ws r4 with
                                      | String c1 r5 =>
                                          if Ascii.eqb c1 ","%char then members n' r5
                                          else if Ascii.eqb c1 "}"%char then Some r5
                                          else None
                                      | EmptyString => None
                                      end
                                  end
                                else None
                            | EmptyString => None
                            end
                        end
                      else None
                  | EmptyString => None
                  end
              end in
            match skip_json_ws s' with
            | String c1 r => if Ascii.eqb c1 "}"%char then Some r
                             else members (String.length s') s'
            | EmptyString => None
            end
          else if Ascii.eqb c "-"%char || is_digit c then lex_number (String c s')
          else if Ascii.eqb c "t"%char then lex_keyword "true" (String c s')
          else if Ascii.eqb c "f"%char then lex_keyword "false" (String c s')
          else if Ascii.eqb c "n"%char then lex_keyword "null" (String c s')
          else None
      end
  end.

(** [JSON.parse(s)] does not throw a [SyntaxError]: [s] is a [JSONText],
    a value surrounded by white space. (Nesting too deep for the engine's
    stack, which makes [JSON.parse] throw a [RangeError], is outside the
    model.) *)
Definition json_text_ok (s : string) : bool :=
  match lex_value (S (String.length s)) s with
  | Some r => match skip_json_ws r with EmptyString => true | String _ _ => false end
  | None => false
  end.

(** [String.prototype.trim]: the white space and line terminators of
    ECMAScript below U+0100 are U+0009..U+000D, U+0020 and U+00A0. *)
Definition js_space (c : ascii) : bool :=
  ascii_in c ["009"; "010"; "011"; "012"; "013"; " "; "160"]%char.

Fixpoint trim_start (s : string) : string :=
  match s with
  | String c s' => if js_space c then trim_start s' else s
  | EmptyString => EmptyString
  end.

Fixpoint trim_end (s : string) : string :=
  match s with
  | EmptyString => EmptyString
  | String c s' =>
      match trim_end s' with
      | EmptyString => if js_space c then EmptyString else String c EmptyString
      | t => String c t
      end
  end.

Definition js_trim (s : string) : string := trim_end (trim_start s).

Section Pipeline.

(** Library functions: [crypto.createHmac('sha256', key).update(msg, 'utf8')
    .digest('hex')], [JSON.stringify(v)] and [JSON.stringify(v, null, 2)]. *)
Variable hmac_sha256_hex : string -> string -> string.
Variable json_stringify : json -> string.
Variable json_stringify_pretty : json -> string.

(** email.service.ts *)
Definition sendEmailNotification (cfg : Config) (res : ProviderResult)
    (to subject body : string) : M unit :=
  if negb (smtp_configured cfg) then tell (LoggedOnly MEmail to body)
  else
    tell (ProviderCall MEmail to body) ;;
    match res with
    | PrOk _ => ret tt
    | PrErr _ => tell (DeliveryFailed MEmail to)
    end.

(** sms.service.ts *)
Definition sendSmsNotification (cfg : Config) (res : ProviderResult)
    (to message : string) : M unit :=
  if negb (twilio_sms_configured cfg) then tell (LoggedOnly MSms to message)
  else
    match truthy_str (TWILIO_PHONE_NUMBER cfg) with
    | None => tell (LoggedOnly MSms to message)
    | Some _ =>
        tell (ProviderCall MSms to message) ;;
        match res with
        | PrOk _ => ret tt
        | PrErr _ => tell (DeliveryFailed MSms to)
        end
    end.

(** call.service.ts *)
Definition makeCallNotification (cfg : Config) (res : ProviderResult)
    (to message : string) : M unit :=
  if negb (twilio_call_configured cfg) then tell (LoggedOnly MCall to message)
  else
    tell (ProviderCall MCall to message) ;;
    match res with
    | PrOk _ => ret tt
    | PrErr _ => tell (DeliveryFailed MCall to)
    end.

(** webhook.service.ts *)
Definition generateSignature (payload secret : string) : string :=
  hmac_sha256_hex secret payload.

Definition webhook_headers (secret : option string) (timestamp payloadString : string)
    : list (string * string) :=
  let headers := [("Content-Type", "application/json");
                  ("X-Webhook-Timestamp", timestamp)] in
  match truthy_str secret with
  | Some s =>
      let signaturePayload := timestamp ++ "." ++ payloadString in
      let signature := generateSignature signaturePayload s in
      hdr_set "X-Webhook-Signature-Version" "v1"
        (hdr_set "X-Webhook-Signature" signature headers)
  | None => headers
  end.

(** The body of [axios.post(url, data, {headers})] with the
    [Content-Type: application/json] header: axios' default
    [transformRequest] returns [stringifySafely(data)], which sends a string
    that [JSON.parse] accepts as it is ([trim]med) and [JSON.stringify]s
    every other value. *)
Definition axios_json_body (data : json) : string :=
  match data with
  | JStr s => if json_text_ok s then js_trim s else json_stringify data
  | _ => json_stringify data
  end.

(** [validateStatus: () => true] makes every status resolve. *)
Definition sendWebhookNotification (secret : option string) (res : ProviderResult)
    (url : string) (data : json) (timestamp : string) : M unit :=
  let payloadString := json_stringify data in
  let headers := webhook_headers secret timestamp payloadString in
  tell (WebhookPost url headers (axios_json_body data)) ;;
  match res with
  | PrOk st => if (Z.leb 200 st && Z.ltb st 300)%bool then ret tt
               else tell (DeliveryFailed MWebhook url)
  | PrErr _ => tell (DeliveryFailed MWebhook url)
  end.

(** producer.ts: [producer.send] of the record, which rejects when the broker
    does not accept it. *)
Definition produceAlertEvent (up : bool) (rec : AlertEvent) : M unit :=
  tell (AuditSend rec) ;;
  if up then ret tt else throw "producer.send rejected".

(** The blocks of the [try] block of [eachMessage], from [severity] on, for
    a user whose context was found. *)
Definition event_severity (ev : AnomalyEvent) : Severity :=
  match ev_severity ev with Some s => s | None => MEDIUM end.

(** -------- EMAIL -------- *)
Definition email_block (env : Env) (ev : AnomalyEvent) (uid : string)
    (userContext : UserContext) : M unit :=
  if canSendNotification userContext EMAIL (event_severity ev) then
    match truthy_str (js_or (email userContext) (ev_email ev)) with
    | Some emailTo =>
        retry_default (fun k =>
          sendEmailNotification (config env) (provider env MEmail k) emailTo
            ("Anomaly Alert for " ++ uid) (json_stringify_pretty (ev_raw ev)))
    | None => ret tt
    end
  else ret tt.

(** -------- SMS -------- *)
Definition sms_block (env : Env) (ev : AnomalyEvent) (uid : string)
    (userContext : UserContext) : M unit :=
  if canSendNotification userContext SMS (event_severity ev) then
    match truthy_str (js_or (phone userContext) (ev_phone ev)) with
    | Some phoneTo =>
        retry_default (fun k =>
          sendSmsNotification (config env) (provider env MSms k) phoneTo
            ("Anomaly detected for " ++ uid ++ ". Severity: "
             ++ severity_to_string (ev_severity ev)))
    | None => ret tt
    end
  else ret tt.

(** -------- WEBHOOK -------- *)
Definition webhook_block (env : Env) (ev : AnomalyEvent) (uid : string) : M unit :=
  match truthy_str (ev_webhookUrl ev) with
  | Some url =>
      retry_default (fun k =>
        sendWebhookNotification (WEBHOOK_SIGNING_SECRET (config env))
          (provider env MWebhook k) url
          (JObj [("userId", JStr uid); ("event", ev_raw ev)]) (clock_ms env))
  | None => ret tt
  end.

(** -------- CALL -------- *)
Definition call_block (env : Env) (ev : AnomalyEvent) (uid : string)
    (userContext : UserContext) : M unit :=
  if canSendNotification userContext VOICE (event_severity ev) then
    match truthy_str (js_or (phone userContext) (ev_phone ev)) with
    | Some phoneTo =>
        retry_default (fun k =>
          makeCallNotification (config env) (provider env MCall k) phoneTo
            ("Critical anomaly detected for user " ++ uid
             ++ ". Please check immediately."))
    | None => ret tt
    end
  else ret tt.

(** -------- PRODUCE ALERT EVENT --------: the record given to the producer. *)
Definition alert_record (env : Env) (ev : AnomalyEvent) (uid : string)
    (userContext : UserContext) : AlertEvent := {|
  alertId := "alert_" ++ clock_ms env;
  a_userId := uid;
  a_severity := ev_severity ev;
  channels := {|
    ch_email := canSendNotification userContext EMAIL (event_severity ev);
    ch_sms := canSendNotification userContext SMS (event_severity ev);
    ch_webhook := if truthy_str (ev_webhookUrl ev) then true else false;
    ch_call := canSendNotification userContext VOICE (event_severity ev)
  |};
  sourceEvent := ev_raw ev;
  timestamp := clock_iso env
|}.

Definition dispatch (env : Env) (ev : AnomalyEvent) (uid : string)
    (userContext : UserContext) : M unit :=
  email_block env ev uid userContext ;;
  sms_block env ev uid userContext ;;
  webhook_block env ev uid ;;
  call_block env ev uid userContext ;;
  produceAlertEvent (producer_up env) (alert_record env ev uid userContext).

Definition event_userId (ev : AnomalyEvent) : string :=
  js_or_default (js_or (ev_userId ev) (ev_meta_user_id ev)) "unknown_user".

Definition event_txId (ev : AnomalyEvent) : string :=
  js_or_default (js_or (js_or (ev_data_tx_id ev) (ev_tx_id ev)) (ev_id ev))
    "unknown_tx".

(** The [try] block of [eachMessage] after the duplicate check; its [catch]
    logs and ends the message. *)
Definition process_event (env : Env) (ev : AnomalyEvent) (uid : string)
    : list effect :=
  match getUserContext (db env) uid with
  | None => []
  | Some userContext =>
      match dispatch env ev uid userContext [] with
      | (tr, Ok _) => tr
      | (tr, _) => (tr ++ [ProcessingFailed])%list
      end
  end.

(** [eachMessage]: [None] is a message without a value; the event is taken
    after [JSON.parse]. Returns the Redis client after the message and the
    effects of the message. *)
Definition eachMessage (env : Env) (redis : option RedisClient)
    (message : option AnomalyEvent) : option RedisClient * list effect :=
  match message with
  | None => (redis, [])
  | Some ev =>
      let uid := event_userId ev in
      let txId := event_txId ev in
      let (shouldSend, redis') := shouldSendAlert redis (redis_now env) uid txId in
      if negb shouldSend then (redis', [])
      else
        (redis', process_event env ev uid)
  end.

(** Messages of one partition, handled one after the other. *)
Fixpoint consume (msgs : list (Env * option AnomalyEvent))
    (redis : option RedisClient) : option RedisClient * list (list effect) :=
  match msgs with
  | [] => (redis, [])
  | (env, m) :: rest =>
      let (redis1, tr) := eachMessage env redis m in
      let (redis2, trs) := consume rest redis1 in
      (redis2, tr :: trs)
  end.

End Pipeline.

(** Only the provider answers change. *)
Definition with_provider (env : Env) (p : Medium -> nat -> ProviderResult) : Env :=
  {| db := db env; redis_now := redis_now env; clock_ms := clock_ms env;
     clock_iso := clock_iso env; config := config env; provider := p;
     producer_up := producer_up env |}.

(** Delivery attempts in a trace: provider requests and the log-only
    deliveries of unconfigured adapters. *)
Definition is_attempt (e : effect) : bool :=
  match e with
  | ProviderCall _ _ _ | WebhookPost _ _ _ | LoggedOnly _ _ _ => true
  | _ => false
  end.

Definition is_audit (e : effect) : bool :=
  match e with AuditSend _ => true | _ => false end.

Definition attempts (tr : list effect) : list effect := filter is_attempt tr.
Definition audits (tr : list effect) : list effect := filter is_audit tr.

Definition waits (backoffMs : Z) (n : nat) : list effect :=
  map (fun i => Wait (backoffMs * 2 ^ Z.of_nat i)%Z) (seq 0 n).

(** The cache cannot give a verdict: no client, a client whose status is
    not ['ready'], or a ready client whose SET command is rejected. *)
Definition cache_unavailable (redis : option RedisClient) : Prop :=
  match redis with
  | None => True
  | Some c => status c <> "ready" \/ reachable c = false
  end.

(** The invocations a test operation answers: failing ([Throw]) on its
    first [n] invocations, then succeeding. *)
Definition fail_until (n : nat) : nat -> M unit :=
  fun k tr => if Nat.ltb k n then (tr, Throw "provider timeout") else (tr, Ok tt).

(** [m1] and [m2] end normally, append the same delivery attempts and no
    audit record. *)
Definition quiet_step (m1 m2 : M unit) : Prop :=
  exists t1 t2, forall tr,
    m1 tr = ((tr ++ t1)%list, Ok tt) /\ m2 tr = ((tr ++ t2)%list, Ok tt) /\
    attempts t1 = attempts t2 /\ audits t1 = [] /\ audits t2 = [].

(** ** Concrete inputs used by the examples below *)

Definition sample_hmac (key msg : string) : string := "hmac(" ++ key ++ "," ++ msg ++ ")".
Definition sample_stringify (_ : json) : string := "{...}".


Definition sample_cfg : Config := {|
  smtp_configured := true;
  twilio_sms_configured := true;
  TWILIO_PHONE_NUMBER := Some "+15550000000";
  twilio_call_configured := true;
  WEBHOOK_SIGNING_SECRET := Some "whsec_test"
|}.

Definition pro_user_row : UserRow := {|
  u_id := "u1";
  u_email := Some "u1@example.com";
  u_subscription := Some {| sub_plan := PRO; sub_features := JObj [] |};
  u_notificationSettings := Some {|
    ns_phoneNumber := Some "+15551234567";
    ns_emailEnabled := true;
    ns_phoneEnabled := true;
    ns_minSeverityForCall := CRITICAL
  |}
|}.

Definition free_sms_user_row : UserRow := {|
  u_id := "u2";
  u_email := Some "u2@example.com";
  u_subscription := Some {| sub_plan := FREE; sub_features := JObj [("sms", JBool true)] |};
  u_notificationSettings := Some {|
    ns_phoneNumber := Some "+15557654321";
    ns_emailEnabled := true;
    ns_phoneEnabled := true;
    ns_minSeverityForCall := CRITICAL
  |}
|}.

Definition sample_db : Db := fun uid =>
  if String.eqb uid "u1" then DbRow (Some pro_user_row)
  else if String.eqb uid "u2" then DbRow (Some free_sms_user_row)
  else if String.eqb uid "u_db_down" then DbError
  else DbRow None.

Definition sample_env (now : Z) : Env := {|
  db := sample_db;
  redis_now := now;
  clock_ms := "1700000000000";
  clock_iso := "2023-11-14T22:13:20.000Z";
  config := sample_cfg;
  provider := fun _ _ => PrOk 200;
  producer_up := true
|}.

Definition sample_event (uid : string) : AnomalyEvent := {|
  ev_userId := Some uid;
  ev_meta_user_id := None;
  ev_data_tx_id := None;
  ev_tx_id := None;
  ev_id := Some "tx1";
  ev_severity := Some CRITICAL;
  ev_email := None;
  ev_phone := None;
  ev_webhookUrl := None;
  ev_raw := JObj [("userId", JStr uid); ("id", JStr "tx1"); ("severity", JStr "CRITICAL")]
|}.

(** An event naming its user and its transaction by [userId] and [id]. *)
Definition sample_event_tx (uid tx : string) : AnomalyEvent := {|
  ev_userId := Some uid;
  ev_meta_user_id := None;
  ev_data_tx_id := None;
  ev_tx_id := None;
  ev_id := Some tx;
  ev_severity := Some HIGH;
  ev_email := None;
  ev_phone := None;
  ev_webhookUrl := None;
  ev_raw := JObj [("userId", JStr uid); ("id", JStr tx); ("severity", JStr "HIGH")]
|}.

(** An event carrying no transaction id at all. *)
Definition untagged_event (uid : string) (sev : Severity) : AnomalyEvent := {|
  ev_userId := Some uid;
  ev_meta_user_id := None;
  ev_data_tx_id := None;
  ev_tx_id := None;
  ev_id := None;
  ev_severity := Some sev;
  ev_email := None;
  ev_phone := None;
  ev_webhookUrl := None;
  ev_raw := JObj [("userId", JStr uid); ("severity", JStr (severity_to_string (Some sev)))]
|}.

Definition fresh_client : RedisClient :=
  {| status := "ready"; reachable := true; store := [] |}.

Definition leased_client : RedisClient :=
  {| status := "ready"; reachable := true; store := [("alert:u1:tx1", 3600%Z)] |}.

(** A user created without a subscription and without notification
    settings. *)
Definition bare_user_row : UserRow := {|
  u_id := "u3";
  u_email := Some "u3@example.com";
  u_subscription := None;
  u_notificationSettings := None
|}.

(** An event with no [severity] field. *)
Definition unrated_event (uid : string) : AnomalyEvent := {|
  ev_userId := Some uid;
  ev_meta_user_id := None;
  ev_data_tx_id := None;
  ev_tx_id := None;
  ev_id := Some "tx2";
  ev_severity := None;
  ev_email := None;
  ev_phone := Some "+15550001111";
  ev_webhookUrl := Some "https://hooks.example.com/a";
  ev_raw := JObj [("userId", JStr uid); ("id", JStr "tx2")]
|}.

(** A PRO user with every channel enabled but no address on file. *)
Definition no_contact_ctx : UserContext := {|
  userId := "u4";
  email := None;
  phone := None;
  plan := PRO;
  features := JObj [];
  settings := {| emailEnabled := true; phoneEnabled := true;
                 minSeverityForCall := CRITICAL |}
|}.



(** Every provider times out and the broker rejects the audit record. *)
Definition failing_env : Env := {|
  db := sample_db;
  redis_now := 0;
  clock_ms := "1700000000000";
  clock_iso := "2023-11-14T22:13:20.000Z";
  config := sample_cfg;
  provider := fun _ _ => PrErr "ETIMEDOUT";
  producer_up := false
|}.

Definition ready_redis : option RedisClient :=
  Some {| status := "ready"; reachable := true; store := [] |}.

Definition down_redis : option RedisClient :=
  Some {| status := "reconnecting"; reachable := false; store := [] |}.

(** ** Redis connection options (deduplication.service.ts) *)

(** [retryStrategy(times)] given to the ioredis constructor: the delay in
    ms before the [times]-th reconnection attempt, [null] to stop. *)
Definition retryStrategy (times : Z) : option Z :=
  if Z.ltb 3 times then None else Some (Z.min (times * 50) 2000).

(** ** api/routes.ts *)

(** An HTTP answer: [res.json(b)] is status 200, [res.status(s).json(b)]
    is status [s]. *)
Record Response : Type := {
  res_status : Z;
  res_body : json
}.

Definition route_reply (status : Z) (success : bool) (message : string) : Response :=
  {| res_status := status;
     res_body := JObj [("success", JBool success); ("message", JStr message)] |}.

Section Routes.

Variable hmac_sha256_hex : string -> string -> string.
Variable json_stringify : json -> string.

(** POST /v1/notifications/test/email, with the fields of [req.body]. *)
Definition test_email_route (cfg : Config) (res : ProviderResult)
    (to subject body : string) : M Response :=
  sendEmailNotification cfg res to subject body ;;
  ret (route_reply 200 true "Test email sent (logged)").

(** POST /v1/notifications/test/sms *)
Definition test_sms_route (cfg : Config) (res : ProviderResult)
    (to message : string) : M Response :=
  sendSmsNotification cfg res to message ;;
  ret (route_reply 200 true "Test SMS sent (logged)").

(** POST /v1/notifications/test/webhook: [url] is the string field of the
    body (absent: [None]), [data] the JSON value of its [data] field;
    [timestamp] is the [Date.now()] read inside [sendWebhookNotification]. *)
Definition test_webhook_route (cfg : Config) (res : ProviderResult)
    (url : option string) (data : option json) (timestamp : string) : M Response :=
  let bad := ret (route_reply 400 false "url and data are required") in
  match truthy_str url, data with
  | Some u, Some d =>
      if json_truthy d then
        sendWebhookNotification hmac_sha256_hex json_stringify
          (WEBHOOK_SIGNING_SECRET cfg) res u d timestamp ;;
        ret (route_reply 200 true "Test webhook sent")
      else bad
  | _, _ => bad
  end.

End Routes.

(** ** app.ts *)







(** A string without the [':'] separator of the deduplication keys. *)
Fixpoint colon_free (s : string) : bool :=
  match s with
  | EmptyString => true
  | String c s' => negb (Ascii.eqb c ":"%char) && colon_free s'
  end.

(** The transaction id fields of an event are all absent or empty. *)
Definition no_tx_id (ev : AnomalyEvent) : Prop :=
  truthy_str (ev_data_tx_id ev) = None /\ truthy_str (ev_tx_id ev) = None /\
  truthy_str (ev_id ev) = None.


(** * Properties *)

(** ** Sanity checks on the samples *)

Example sample_pro_user_gets_email_sms_call :
  map attempts
    (snd (consume sample_hmac sample_stringify sample_stringify
            [(sample_env 0, Some (sample_event "u1"))] ready_redis))
  = [[ProviderCall MEmail "u1@example.com" "{...}";
      ProviderCall MSms "+15551234567" "Anomaly detected for u1. Severity: CRITICAL";
      ProviderCall MCall "+15551234567"
        "Critical anomaly detected for user u1. Please check immediately."]].
Proof. vm_compute. reflexivity. Qed.

(** [JSON.parse] accepts [ [1] ], [{}], [ [[],{}] ], [-1.5e+3], [true] and
    the object with member [a] equal to 1 surrounded by white space, and
    rejects [01], [tru], [ [1,] ], [1 2] and the empty string; [trim]
    removes the surrounding white space. *)
Example json_text_ok_samples :
  map json_text_ok
    ["[1]"; "{}"; "[[],{}]"; "-1.5e+3"; "true";
     String "010"%char (String "{"%char (String "034"%char (String "a"%char
       (String "034"%char (":1} " ++ String "009"%char EmptyString)))));
     "01"; "tru"; "[1,]"; "1 2"; EmptyString]
  = [true; true; true; true; true; true; false; false; false; false; false].
Proof. vm_compute. reflexivity. Qed.

Example js_trim_sample :
  js_trim (String "010"%char (" [1] " ++ String "160"%char EmptyString)) = "[1]".
Proof. vm_compute. reflexivity. Qed.

(** ** Entitlement rules (subscription.service.ts) *)

Lemma is_json_true_iff (o : option json) :
  is_json_true o = true <-> o = Some (JBool true).
Proof.
  split.
  - destruct o as [[| [|] | | | |]|]; simpl; congruence.
  - intros ->. reflexivity.
Qed.

Lemma sms_flag_truthy (f : json) :
  json_truthy f && is_json_true (get_prop "sms" f) = is_json_true (get_prop "sms" f).
Proof. destruct f; simpl; rewrite ?andb_false_r; reflexivity. Qed.

Lemma SubscriptionPlan_eqb_true (a b : SubscriptionPlan) :
  SubscriptionPlan_eqb a b = true <-> a = b.
Proof. destruct a, b; simpl; split; congruence. Qed.

Lemma Severity_eqb_true (a b : Severity) : Severity_eqb a b = true <-> a = b.
Proof. destruct a, b; simpl; split; congruence. Qed.

Lemma canSendNotification_SMS (ctx : UserContext) (sev : Severity) :
  canSendNotification ctx SMS sev
  = phoneEnabled (settings ctx)
    && (SubscriptionPlan_eqb (plan ctx) PRO || is_json_true (get_prop "sms" (features ctx))).
Proof.
  unfold canSendNotification. rewrite sms_flag_truthy.
  destruct (phoneEnabled (settings ctx)), (SubscriptionPlan_eqb (plan ctx) PRO),
    (is_json_true (get_prop "sms" (features ctx))); reflexivity.
Qed.

(** C2: [canSendNotification] is a total function of the context, the channel
    and the severity; EMAIL is permitted iff [emailEnabled]; SMS iff
    [phoneEnabled] and (plan PRO or [features.sms === true]); VOICE iff plan
    PRO and severity CRITICAL; the stored [minSeverityForCall] never changes
    the answer. *)
Theorem canSendNotification_rules (ctx : UserContext) (sev : Severity) :
  (canSendNotification ctx EMAIL sev = true <-> emailEnabled (settings ctx) = true) /\
  (canSendNotification ctx SMS sev = true <->
     phoneEnabled (settings ctx) = true /\
     (plan ctx = PRO \/ get_prop "sms" (features ctx) = Some (JBool true))) /\
  (canSendNotification ctx VOICE sev = true <-> plan ctx = PRO /\ sev = CRITICAL) /\
  (forall (m : Severity) (ch : Channel),
     canSendNotification
       {| userId := userId ctx; email := email ctx; phone := phone ctx;
          plan := plan ctx; features := features ctx;
          settings := {| emailEnabled := emailEnabled (settings ctx);
                         phoneEnabled := phoneEnabled (settings ctx);
                         minSeverityForCall := m |} |} ch sev
     = canSendNotification ctx ch sev).
Proof.
  split; [|split; [|split]].
  - reflexivity.
  - rewrite canSendNotification_SMS, andb_true_iff, orb_true_iff,
      SubscriptionPlan_eqb_true, is_json_true_iff. reflexivity.
  - unfold canSendNotification.
    rewrite <- SubscriptionPlan_eqb_true, <- Severity_eqb_true.
    destruct (SubscriptionPlan_eqb (plan ctx) PRO), (Severity_eqb sev CRITICAL);
      simpl; intuition congruence.
  - intros m ch. destruct ch; reflexivity.
Qed.

(** C5, as stated, fails: a FREE user whose subscription carries the
    feature flag [sms: true] and who enabled the phone is permitted SMS. *)
Lemma free_plan_sms_flag_counterexample :
  match getUserContext sample_db "u2" with
  | Some ctx => plan ctx = FREE /\ canSendNotification ctx SMS CRITICAL = true
  | None => False
  end.
Proof. vm_compute. split; reflexivity. Qed.

(** C5 (amended): for a FREE-plan context and every severity, VOICE is never
    permitted, EMAIL is permitted iff [emailEnabled], and SMS is permitted
    only through the feature flag: iff [phoneEnabled] and
    [features.sms === true]. *)
Theorem free_plan_permissions (ctx : UserContext) (sev : Severity) :
  plan ctx = FREE ->
  canSendNotification ctx VOICE sev = false /\
  canSendNotification ctx EMAIL sev = emailEnabled (settings ctx) /\
  (canSendNotification ctx SMS sev = true <->
     phoneEnabled (settings ctx) = true /\
     get_prop "sms" (features ctx) = Some (JBool true)).
Proof.
  intros Hfree. split; [|split].
  - unfold canSendNotification. rewrite Hfree. reflexivity.
  - reflexivity.
  - rewrite canSendNotification_SMS, Hfree. simpl.
    rewrite andb_true_iff, is_json_true_iff. reflexivity.
Qed.

Lemma free_plan_permissions_witness :
  (match getUserContext sample_db "u2" with
   | Some ctx => plan ctx = FREE
   | None => False
   end) /\
  canSendNotification
    {| userId := "u3"; email := None; phone := None; plan := FREE;
       features := JObj [];
       settings := {| emailEnabled := true; phoneEnabled := true;
                      minSeverityForCall := LOW |} |} VOICE CRITICAL = false.
Proof.
  split.
  - vm_compute. reflexivity.
  - apply (free_plan_permissions
             {| userId := "u3"; email := None; phone := None; plan := FREE;
                features := JObj [];
                settings := {| emailEnabled := true; phoneEnabled := true;
                               minSeverityForCall := LOW |} |} CRITICAL).
    reflexivity.
Defined.

(** C10: [getUserContext] has no failing outcome: a rejected store read
    gives [null], the same value as a missing row, and the event is then
    dropped with no delivery and no audit record. *)
Theorem db_error_drops_event
    (hmac : string -> string -> string) (js jsp : json -> string)
    (env : Env) (redis : option RedisClient) (ev : AnomalyEvent) :
  db env (event_userId ev) = DbError ->
  getUserContext (db env) (event_userId ev) = getUserContext (fun _ => DbRow None) (event_userId ev) /\
  getUserContext (db env) (event_userId ev) = None /\
  snd (eachMessage hmac js jsp env redis (Some ev)) = [].
Proof.
  intros Hdb.
  assert (Hnone : getUserContext (db env) (event_userId ev) = None).
  { unfold getUserContext. rewrite Hdb. reflexivity. }
  split; [|split]; [exact Hnone | exact Hnone |].
  unfold eachMessage.
  destruct (shouldSendAlert redis (redis_now env) (event_userId ev) (event_txId ev))
    as [[|] r'].
  - simpl. unfold process_event. rewrite Hnone. reflexivity.
  - reflexivity.
Qed.

Lemma db_error_drops_event_witness :
  sample_db (event_userId (sample_event "u_db_down")) = DbError /\
  snd (eachMessage sample_hmac sample_stringify sample_stringify
         (sample_env 0) ready_redis (Some (sample_event "u_db_down"))) = [].
Proof.
  split.
  - reflexivity.
  - apply (db_error_drops_event sample_hmac sample_stringify sample_stringify
             (sample_env 0) ready_redis (sample_event "u_db_down")).
    reflexivity.
Defined.

(** ** The retry wrapper (kafka/consumer.ts) *)

Lemma waits_S (b : Z) (n : nat) :
  waits b (S n) = Wait b :: waits (b * 2) n.
Proof.
  unfold waits. simpl. rewrite Z.mul_1_r. f_equal.
  rewrite <- seq_shift, map_map. apply map_ext. intros i. f_equal.
  rewrite Nat2Z.inj_succ, Z.pow_succ_r by lia. lia.
Qed.

(** [n] failing invocations in a row are [n] turns of the loop, each
    followed by a wait that doubles. *)
Lemma retry_loop_failures {A} (fn : nat -> M A) (err : nat -> string) :
  forall n fuel attempt retries b tr,
    (attempt + n <= retries)%nat -> (n <= fuel)%nat ->
    (forall k t, (attempt <= k < attempt + n)%nat -> fn k t = (t, Throw (err k))) ->
    retry_loop fuel fn attempt retries b tr
    = retry_loop (fuel - n) fn (attempt + n) retries (b * 2 ^ Z.of_nat n)
        (tr ++ waits b n)%list.
Proof.
  induction n as [|n IH]; intros fuel attempt retries b tr Hr Hf Hfn.
  - simpl. rewrite Nat.sub_0_r, Nat.add_0_r, Z.mul_1_r, app_nil_r. reflexivity.
  - destruct fuel as [|fuel]; [lia|].
    simpl retry_loop at 1. rewrite (Hfn attempt tr) by lia.
    assert (Hlt : Nat.ltb retries (S attempt) = false) by (apply Nat.ltb_ge; lia).
    rewrite Hlt.
    rewrite (IH fuel (S attempt) retries (b * 2)%Z (tr ++ [Wait b])%list) by
      (try lia; intros k t Hk; apply Hfn; lia).
    rewrite waits_S, <- app_assoc.
    replace (S fuel - S n)%nat with (fuel - n)%nat by lia.
    replace (attempt + S n)%nat with (S attempt + n)%nat by lia.
    replace (b * 2 ^ Z.of_nat (S n))%Z with (b * 2 * 2 ^ Z.of_nat n)%Z
      by (rewrite Nat2Z.inj_succ, Z.pow_succ_r by lia; lia).
    reflexivity.
Qed.

(** The loop only looks at the invocations [attempt .. retries]. *)
Lemma retry_loop_only_first {A} (fn fn' : nat -> M A) :
  forall fuel attempt retries b tr,
    (attempt <= retries)%nat ->
    (forall k t, (attempt <= k <= retries)%nat -> fn k t = fn' k t) ->
    retry_loop fuel fn attempt retries b tr = retry_loop fuel fn' attempt retries b tr.
Proof.
  induction fuel as [|fuel IH]; intros attempt retries b tr Hle Heq; [reflexivity|].
  simpl. rewrite (Heq attempt tr) by lia.
  destruct (fn' attempt tr) as [tr1 [a|e|]]; try reflexivity.
  destruct (Nat.ltb retries (S attempt)) eqn:Hlt; [reflexivity|].
  apply Nat.ltb_ge in Hlt.
  apply IH; [lia|]. intros k t Hk. apply Heq. lia.
Qed.

(** C3, as stated, fails: with the defaults the operation is invoked a
    fourth time; an operation failing on its first three invocations and
    succeeding on the fourth makes [retry] succeed after waits of 2 s, 4 s
    and 8 s. *)
Lemma retry_fourth_invocation_counterexample :
  retry_default (fail_until 3) [] = ([Wait 2000; Wait 4000; Wait 8000], Ok tt).
Proof. reflexivity. Qed.

(** C3 (amended): [retry] with the defaults ([MAX_RETRIES] = 3 retries,
    [BACKOFF_BASE_MS] = 2000) invokes the operation at most
    [MAX_RETRIES + 1] = 4 times (no answer of a fifth invocation is ever
    looked at); after the k-th failure, for k <= 3, it waits
    2000 * 2^(k-1) ms and invokes again, returning the first success; when
    the fourth invocation fails too it re-throws that last error, after
    waits of 2000, 4000 and 8000 ms. *)
Theorem retry_default_policy {A} :
  (forall (fn fn' : nat -> M A),
     (forall k t, (k <= MAX_RETRIES)%nat -> fn k t = fn' k t) ->
     forall tr, retry_default fn tr = retry_default fn' tr) /\
  (forall (fn : nat -> M A) (err : nat -> string) (n : nat) (a : A) tr,
     (n <= MAX_RETRIES)%nat ->
     (forall k t, (k < n)%nat -> fn k t = (t, Throw (err k))) ->
     (forall t, fn n t = (t, Ok a)) ->
     retry_default fn tr = ((tr ++ waits BACKOFF_BASE_MS n)%list, Ok a)) /\
  (forall (fn : nat -> M A) (err : nat -> string) tr,
     (forall k t, (k <= MAX_RETRIES)%nat -> fn k t = (t, Throw (err k))) ->
     retry_default fn tr
     = ((tr ++ [Wait 2000; Wait 4000; Wait 8000])%list, Throw (err MAX_RETRIES))).
Proof.
  split; [|split].
  - intros fn fn' Heq tr. unfold retry_default, retry.
    apply retry_loop_only_first; [lia|]. intros k t Hk. apply Heq. lia.
  - intros fn err n a tr Hn Hfail Hok. unfold retry_default, retry.
    rewrite (retry_loop_failures fn err n) by (try (unfold MAX_RETRIES in *; lia);
      intros k t Hk; apply Hfail; lia).
    simpl Nat.add. unfold MAX_RETRIES in *.
    replace (S 3 - n)%nat with (S (3 - n)) by lia.
    simpl. rewrite Hok. reflexivity.
  - intros fn err tr Hfail. unfold retry_default, retry.
    rewrite (retry_loop_failures fn err 3) by (try (unfold MAX_RETRIES; lia);
      intros k t Hk; apply Hfail; unfold MAX_RETRIES; lia).
    simpl. rewrite Hfail by (unfold MAX_RETRIES; lia). reflexivity.
Qed.

Lemma retry_default_policy_witness :
  retry_default (fail_until 2) [] = ([Wait 2000; Wait 4000], Ok tt).
Proof.
  destruct (@retry_default_policy unit) as [_ [Hsucc _]].
  apply (Hsucc (fail_until 2) (fun _ => "provider timeout") 2 tt []).
  - unfold MAX_RETRIES. lia.
  - intros k t Hk. unfold fail_until.
    destruct (Nat.ltb_spec k 2); [reflexivity | lia].
  - intros t. reflexivity.
Defined.

(** ** The duplicate guard and the consumer loop *)

Lemma key_live_In (now : Z) (key : string) (e : Z) (st : list (string * Z)) :
  In (key, e) st -> (now < e)%Z -> key_live now key st = true.
Proof.
  intros Hin Hlt. unfold key_live. apply existsb_exists.
  exists (key, e). split; [exact Hin|]. simpl.
  rewrite String.eqb_refl. apply Z.ltb_lt. exact Hlt.
Qed.

Lemma shouldSendAlert_ready (c : RedisClient) (now : Z) (uid txId : string) :
  status c = "ready" -> reachable c = true ->
  shouldSendAlert (Some c) now uid txId
  = if key_live now (dedup_key uid txId) (store c) then (false, Some c)
    else (true, Some (with_store c
                        ((dedup_key uid txId, (now + DEDUP_TTL_SECONDS)%Z)
                         :: filter (fun kv => negb (String.eqb (fst kv) (dedup_key uid txId)))
                              (store c)))).
Proof.
  intros Hs Hr. unfold shouldSendAlert, redis_set_nx_ex.
  rewrite Hs, Hr. simpl.
  destruct (key_live now (dedup_key uid txId) (store c)); reflexivity.
Qed.

(** A message at a second before [e] keeps a lease [(key, e)] and the
    client's connection state. *)
Lemma eachMessage_keeps_lease hmac js jsp (env : Env) (c : RedisClient)
    (m : option AnomalyEvent) (key : string) (e : Z) :
  In (key, e) (store c) -> (redis_now env < e)%Z ->
  exists c', fst (eachMessage hmac js jsp env (Some c) m) = Some c' /\
             status c' = status c /\ reachable c' = reachable c /\
             In (key, e) (store c').
Proof.
  intros Hin Hlt. unfold eachMessage.
  destruct m as [ev|]; [|exists c; auto].
  unfold shouldSendAlert, redis_set_nx_ex.
  destruct (negb (String.eqb (status c) "ready")); [exists c; auto|].
  destruct (negb (reachable c)); [exists c; auto|].
  destruct (key_live (redis_now env) (dedup_key (event_userId ev) (event_txId ev)) (store c))
    eqn:Hlive.
  - exists c. auto.
  - eexists. split; [destruct (negb true); reflexivity|].
    split; [reflexivity|]. split; [reflexivity|].
    simpl. right. apply filter_In. split; [exact Hin|].
    simpl. destruct (String.eqb key (dedup_key (event_userId ev) (event_txId ev))) eqn:Hk;
      [|reflexivity].
    apply String.eqb_eq in Hk. subst key.
    rewrite (key_live_In _ _ e) in Hlive by assumption. discriminate.
Qed.

Lemma consume_keeps_lease hmac js jsp :
  forall (msgs : list (Env * option AnomalyEvent)) (c : RedisClient) (key : string) (e : Z),
    In (key, e) (store c) ->
    Forall (fun p => (redis_now (fst p) < e)%Z) msgs ->
    exists c', fst (consume hmac js jsp msgs (Some c)) = Some c' /\
               status c' = status c /\ reachable c' = reachable c /\
               In (key, e) (store c').
Proof.
  induction msgs as [|[env m] rest IH]; intros c key e Hin Hall.
  - exists c. auto.
  - inversion Hall as [|? ? Hhd Htl]; subst. simpl in Hhd.
    destruct (eachMessage_keeps_lease hmac js jsp env c m key e Hin Hhd)
      as [c1 [H1 [Hs1 [Hr1 Hin1]]]].
    simpl. destruct (eachMessage hmac js jsp env (Some c) m) as [r1 tr1] eqn:Hm.
    simpl in H1. subst r1.
    destruct (IH c1 key e Hin1 Htl) as [c2 [H2 [Hs2 [Hr2 Hin2]]]].
    destruct (consume hmac js jsp rest (Some c1)) as [r2 trs] eqn:Hc.
    simpl in H2. subst r2. exists c2. simpl. repeat split; congruence.
Qed.

Lemma consume_app hmac js jsp :
  forall (l1 l2 : list (Env * option AnomalyEvent)) (r : option RedisClient),
    snd (consume hmac js jsp (l1 ++ l2) r)
    = (snd (consume hmac js jsp l1 r)
       ++ snd (consume hmac js jsp l2 (fst (consume hmac js jsp l1 r))))%list.
Proof.
  induction l1 as [|[env m] rest IH]; intros l2 r; [reflexivity|].
  simpl. destruct (eachMessage hmac js jsp env r m) as [r1 tr1].
  specialize (IH l2 r1).
  destruct (consume hmac js jsp (rest ++ l2) r1) as [r2 trs2].
  destruct (consume hmac js jsp rest r1) as [r3 trs3]. simpl in *.
  rewrite IH. reflexivity.
Qed.

Lemma consume_cons hmac js jsp (env : Env) (m : option AnomalyEvent)
    (rest : list (Env * option AnomalyEvent)) (r : option RedisClient) :
  snd (consume hmac js jsp ((env, m) :: rest) r)
  = snd (eachMessage hmac js jsp env r m)
    :: snd (consume hmac js jsp rest (fst (eachMessage hmac js jsp env r m))).
Proof.
  simpl. destruct (eachMessage hmac js jsp env r m) as [r1 tr1]. simpl.
  destruct (consume hmac js jsp rest r1). reflexivity.
Qed.

Lemma eachMessage_ready hmac js jsp (env : Env) (c : RedisClient) (ev : AnomalyEvent) :
  status c = "ready" -> reachable c = true ->
  let key := dedup_key (event_userId ev) (event_txId ev) in
  eachMessage hmac js jsp env (Some c) (Some ev)
  = if key_live (redis_now env) key (store c) then (Some c, [])
    else (Some (with_store c ((key, (redis_now env + DEDUP_TTL_SECONDS)%Z)
                   :: filter (fun kv => negb (String.eqb (fst kv) key)) (store c))),
          process_event hmac js jsp env ev (event_userId ev)).
Proof.
  intros Hs Hr key. unfold eachMessage.
  rewrite (shouldSendAlert_ready c) by assumption. fold key.
  destruct (key_live (redis_now env) key (store c)); reflexivity.
Qed.

(** C1: when the duplicate guard answers [false] the message produces no
    effect at all (no delivery, no audit record); and with the cache
    available, of two occurrences of one event (same user id and incident
    id) whose later one comes within the lease TTL of the first, with any
    messages in between, at most one produces effects: the lease written
    by the first (or one still live before it) suppresses the other. *)
Theorem duplicate_event_sent_at_most_once
    (hmac : string -> string -> string) (js jsp : json -> string) :
  (forall (env : Env) (redis : option RedisClient) (ev : AnomalyEvent),
     fst (shouldSendAlert redis (redis_now env) (event_userId ev) (event_txId ev)) = false ->
     snd (eachMessage hmac js jsp env redis (Some ev)) = []) /\
  (forall (c : RedisClient) (ev : AnomalyEvent) (env1 env2 : Env)
          (mid : list (Env * option AnomalyEvent)),
     status c = "ready" -> reachable c = true ->
     Forall (fun p => (redis_now (fst p) < redis_now env1 + DEDUP_TTL_SECONDS)%Z)
       (mid ++ [(env2, Some ev)]) ->
     let trs := snd (consume hmac js jsp ((env1, Some ev) :: mid ++ [(env2, Some ev)])
                       (Some c)) in
     hd [] trs = [] \/ last trs [] = []).
Proof.
  split.
  - intros env redis ev Hdup. unfold eachMessage.
    destruct (shouldSendAlert redis (redis_now env) (event_userId ev) (event_txId ev))
      as [b r'] eqn:Hs.
    simpl in Hdup. subst b. reflexivity.
  - intros c ev env1 env2 mid Hs Hr Hwin trs. subst trs.
    rewrite consume_cons.
    rewrite (eachMessage_ready hmac js jsp env1 c ev Hs Hr).
    set (key := dedup_key (event_userId ev) (event_txId ev)).
    destruct (key_live (redis_now env1) key (store c)) eqn:Hlive.
    + left. reflexivity.
    + right.
      set (c1 := with_store c ((key, (redis_now env1 + DEDUP_TTL_SECONDS)%Z)
                   :: filter (fun kv => negb (String.eqb (fst kv) key)) (store c))).
      simpl fst.
      assert (Hmid : Forall (fun p => (redis_now (fst p) < redis_now env1 + DEDUP_TTL_SECONDS)%Z) mid).
      { apply Forall_app in Hwin. apply Hwin. }
      assert (Henv2 : (redis_now env2 < redis_now env1 + DEDUP_TTL_SECONDS)%Z).
      { apply Forall_app in Hwin. destruct Hwin as [_ H2]. inversion H2. assumption. }
      destruct (consume_keeps_lease hmac js jsp mid c1 key
                  (redis_now env1 + DEDUP_TTL_SECONDS)%Z (or_introl eq_refl) Hmid)
        as [c2 [Hc2 [Hs2 [Hr2 Hin2]]]].
      rewrite consume_app, Hc2, consume_cons.
      simpl in Hs2, Hr2.
      rewrite (eachMessage_ready hmac js jsp env2 c2 ev) by congruence.
      fold key. rewrite (key_live_In _ _ _ _ Hin2 Henv2).
      simpl snd. rewrite app_comm_cons. apply last_last.
Qed.

Lemma duplicate_event_sent_at_most_once_witness :
  (Forall (fun p => (redis_now (fst p) < redis_now (sample_env 0) + DEDUP_TTL_SECONDS)%Z)
     ([] ++ [(sample_env 60, Some (sample_event "u1"))])) /\
  let trs := snd (consume sample_hmac sample_stringify sample_stringify
                    ((sample_env 0, Some (sample_event "u1")) :: []
                       ++ [(sample_env 60, Some (sample_event "u1"))]) ready_redis) in
  hd [] trs = [] \/ last trs [] = [].
Proof.
  split.
  - repeat constructor.
  - destruct (duplicate_event_sent_at_most_once sample_hmac sample_stringify sample_stringify)
      as [_ H].
    apply (H {| status := "ready"; reachable := true; store := [] |}
             (sample_event "u1") (sample_env 0) (sample_env 60) []);
      [reflexivity | reflexivity | repeat constructor].
Defined.

(** C4: when the cache is unavailable (no client, client not ready, or the
    SET NX write rejected) [shouldSendAlert] answers [true] whatever the
    user and incident, and leaves the cache as it was; so two identical
    events in a row are both processed in full, past the guard. *)
Theorem cache_unavailable_fail_open
    (hmac : string -> string -> string) (js jsp : json -> string)
    (redis : option RedisClient) :
  cache_unavailable redis ->
  (forall (now : Z) (uid txId : string), shouldSendAlert redis now uid txId = (true, redis)) /\
  (forall (env1 env2 : Env) (ev : AnomalyEvent),
     consume hmac js jsp [(env1, Some ev); (env2, Some ev)] redis
     = (redis, [process_event hmac js jsp env1 ev (event_userId ev);
                process_event hmac js jsp env2 ev (event_userId ev)])).
Proof.
  intros Hun.
  assert (Hopen : forall now uid txId, shouldSendAlert redis now uid txId = (true, redis)).
  { intros now uid txId. destruct redis as [c|]; [|reflexivity].
    simpl in Hun. unfold shouldSendAlert.
    destruct (String.eqb (status c) "ready") eqn:Hst; [|reflexivity].
    apply String.eqb_eq in Hst. destruct Hun as [Hne | Hunr]; [contradiction|].
    simpl. unfold redis_set_nx_ex. rewrite Hunr. reflexivity. }
  split; [exact Hopen|].
  intros env1 env2 ev. simpl. unfold eachMessage.
  rewrite Hopen. simpl. rewrite Hopen. reflexivity.
Qed.

Lemma cache_unavailable_fail_open_witness :
  cache_unavailable down_redis /\
  consume sample_hmac sample_stringify sample_stringify
    [(sample_env 0, Some (sample_event "u1")); (sample_env 1, Some (sample_event "u1"))]
    down_redis
  = (down_redis,
     [process_event sample_hmac sample_stringify sample_stringify
        (sample_env 0) (sample_event "u1") "u1";
      process_event sample_hmac sample_stringify sample_stringify
        (sample_env 1) (sample_event "u1") "u1"]).
Proof.
  assert (Hd : cache_unavailable down_redis) by (simpl; left; discriminate).
  split; [exact Hd|].
  destruct (cache_unavailable_fail_open sample_hmac sample_stringify sample_stringify
              down_redis Hd) as [_ H].
  apply (H (sample_env 0) (sample_env 1) (sample_event "u1")).
Defined.

(** C9: the lease is written before the user is looked up. For a first
    sighting with the cache available, the lease is taken even when the
    user is unknown (the message then has no effect at all), and the same
    event again within the TTL is suppressed, whatever the store answers
    by then. *)
Theorem lease_claimed_before_user_lookup
    (hmac : string -> string -> string) (js jsp : json -> string)
    (c : RedisClient) (ev : AnomalyEvent) (env1 env2 : Env) :
  status c = "ready" -> reachable c = true ->
  key_live (redis_now env1) (dedup_key (event_userId ev) (event_txId ev)) (store c) = false ->
  (redis_now env2 < redis_now env1 + DEDUP_TTL_SECONDS)%Z ->
  let (r1, tr1) := eachMessage hmac js jsp env1 (Some c) (Some ev) in
  (getUserContext (db env1) (event_userId ev) = None -> tr1 = []) /\
  snd (eachMessage hmac js jsp env2 r1 (Some ev)) = [].
Proof.
  intros Hs Hr Hfresh Hwin.
  rewrite (eachMessage_ready hmac js jsp env1 c ev Hs Hr).
  set (key := dedup_key (event_userId ev) (event_txId ev)) in *.
  rewrite Hfresh. split.
  - intros Hnone. unfold process_event. rewrite Hnone. reflexivity.
  - rewrite (eachMessage_ready hmac js jsp env2) by assumption. fold key.
    rewrite (key_live_In (redis_now env2) key (redis_now env1 + DEDUP_TTL_SECONDS)%Z)
      by (simpl; auto). reflexivity.
Qed.

Lemma lease_claimed_before_user_lookup_witness :
  key_live 0 (dedup_key "nobody" "tx1") [] = false /\
  (let (r1, tr1) := eachMessage sample_hmac sample_stringify sample_stringify
                      (sample_env 0) (Some {| status := "ready"; reachable := true; store := [] |})
                      (Some (sample_event "nobody")) in
   (getUserContext sample_db "nobody" = None -> tr1 = []) /\
   snd (eachMessage sample_hmac sample_stringify sample_stringify
          (sample_env 1800) r1 (Some (sample_event "nobody"))) = []).
Proof.
  split; [reflexivity|].
  apply (lease_claimed_before_user_lookup sample_hmac sample_stringify sample_stringify
           {| status := "ready"; reachable := true; store := [] |}
           (sample_event "nobody") (sample_env 0) (sample_env 1800));
    [reflexivity | reflexivity | reflexivity | vm_compute; reflexivity].
Defined.

(** ** Channel adapters, the retry wrapper around them, and the audit record *)

Lemma bind_ok (a k : M unit) (tr t : list effect) :
  a tr = ((tr ++ t)%list, Ok tt) -> (a ;; k) tr = k (tr ++ t)%list.
Proof. intros H. unfold bind. rewrite H. reflexivity. Qed.

(** An operation whose first invocation ends normally is invoked once. *)
Lemma retry_default_first_ok {A} (fn : nat -> M A) (tr tr' : list effect) (a : A) :
  fn 0%nat tr = (tr', Ok a) -> retry_default fn tr = fn 0%nat tr.
Proof. intros H. unfold retry_default, retry. simpl. rewrite H. reflexivity. Qed.

Ltac run_adapter :=
  repeat match goal with
         | |- context [if ?b then _ else _] => destruct b
         | |- context [match ?x with PrOk _ => _ | PrErr _ => _ end] => destruct x
         | |- context [match truthy_str ?x with Some _ => _ | None => _ end] =>
             destruct (truthy_str x)
         end;
  eexists; eexists; intros tr;
  (split; [unfold bind, tell, ret; simpl; rewrite <- ?app_assoc; reflexivity|]);
  (split; [unfold bind, tell, ret; simpl; rewrite <- ?app_assoc; reflexivity|]);
  simpl; repeat split.

Lemma quiet_email (cfg : Config) (r1 r2 : ProviderResult) (to subject body : string) :
  quiet_step (sendEmailNotification cfg r1 to subject body)
             (sendEmailNotification cfg r2 to subject body).
Proof. unfold sendEmailNotification. run_adapter. Qed.

Lemma quiet_sms (cfg : Config) (r1 r2 : ProviderResult) (to message : string) :
  quiet_step (sendSmsNotification cfg r1 to message)
             (sendSmsNotification cfg r2 to message).
Proof. unfold sendSmsNotification. run_adapter. Qed.

Lemma quiet_call (cfg : Config) (r1 r2 : ProviderResult) (to message : string) :
  quiet_step (makeCallNotification cfg r1 to message)
             (makeCallNotification cfg r2 to message).
Proof. unfold makeCallNotification. run_adapter. Qed.

Lemma quiet_webhook hmac js (secret : option string) (r1 r2 : ProviderResult)
    (url : string) (data : json) (ts : string) :
  quiet_step (sendWebhookNotification hmac js secret r1 url data ts)
             (sendWebhookNotification hmac js secret r2 url data ts).
Proof. unfold sendWebhookNotification. run_adapter. Qed.

Lemma quiet_ret : quiet_step (ret tt) (ret tt).
Proof.
  exists [], []. intros tr. rewrite app_nil_r. repeat split.
Qed.

Lemma quiet_retry (fn1 fn2 : nat -> M unit) :
  quiet_step (fn1 0%nat) (fn2 0%nat) -> quiet_step (retry_default fn1) (retry_default fn2).
Proof.
  intros [t1 [t2 Hq]]. exists t1, t2. intros tr.
  destruct (Hq tr) as [E1 [E2 Rest]]. rewrite (retry_default_first_ok fn1 tr _ tt E1).
  rewrite (retry_default_first_ok fn2 tr _ tt E2). auto.
Qed.

Lemma quiet_blocks hmac js jsp (env : Env) (p : Medium -> nat -> ProviderResult)
    (ev : AnomalyEvent) (uid : string) (uc : UserContext) :
  quiet_step (email_block jsp env ev uid uc) (email_block jsp (with_provider env p) ev uid uc) /\
  quiet_step (sms_block env ev uid uc) (sms_block (with_provider env p) ev uid uc) /\
  quiet_step (webhook_block hmac js env ev uid) (webhook_block hmac js (with_provider env p) ev uid) /\
  quiet_step (call_block env ev uid uc) (call_block (with_provider env p) ev uid uc).
Proof.
  unfold email_block, sms_block, webhook_block, call_block. simpl.
  repeat split;
    repeat match goal with
           | |- quiet_step (if ?b then _ else _) _ => destruct b
           | |- quiet_step (match ?x with Some _ => _ | None => _ end) _ => destruct x
           end;
    try apply quiet_ret; apply quiet_retry;
    first [apply quiet_email | apply quiet_sms | apply quiet_webhook | apply quiet_call].
Qed.

Lemma produceAlertEvent_run (up : bool) (rec : AlertEvent) (tr : list effect) :
  produceAlertEvent up rec tr
  = ((tr ++ [AuditSend rec])%list,
     if up then Ok tt else Throw "producer.send rejected").
Proof. unfold produceAlertEvent, bind, tell. destruct up; reflexivity. Qed.

(** Whatever the providers answer, [dispatch] makes the same delivery
    attempts and ends with the one audit record. *)
Lemma dispatch_run hmac js jsp (env : Env) (p : Medium -> nat -> ProviderResult)
    (ev : AnomalyEvent) (uid : string) (uc : UserContext) :
  exists t1 t2,
    dispatch hmac js jsp env ev uid uc []
    = ((t1 ++ [AuditSend (alert_record env ev uid uc)])%list,
       if producer_up env then Ok tt else Throw "producer.send rejected") /\
    dispatch hmac js jsp (with_provider env p) ev uid uc []
    = ((t2 ++ [AuditSend (alert_record env ev uid uc)])%list,
       if producer_up env then Ok tt else Throw "producer.send rejected") /\
    attempts t1 = attempts t2 /\ audits t1 = [] /\ audits t2 = [].
Proof.
  destruct (quiet_blocks hmac js jsp env p ev uid uc)
    as [[e1 [e2 He]] [[s1 [s2 Hs]] [[w1 [w2 Hw]] [c1 [c2 Hc]]]]].
  destruct (He []) as [Ee1 [Ee2 [Ae [De1 De2]]]].
  destruct (Hs ([] ++ e1)%list) as [Es1 [_ [As [Ds1 Ds2]]]].
  destruct (Hs ([] ++ e2)%list) as [_ [Es2 _]].
  destruct (Hw (([] ++ e1) ++ s1)%list) as [Ew1 [_ [Aw [Dw1 Dw2]]]].
  destruct (Hw (([] ++ e2) ++ s2)%list) as [_ [Ew2 _]].
  destruct (Hc ((([] ++ e1) ++ s1) ++ w1)%list) as [Ec1 [_ [Ac [Dc1 Dc2]]]].
  destruct (Hc ((([] ++ e2) ++ s2) ++ w2)%list) as [_ [Ec2 _]].
  exists (e1 ++ s1 ++ w1 ++ c1)%list, (e2 ++ s2 ++ w2 ++ c2)%list.
  unfold dispatch.
  rewrite (bind_ok _ _ _ _ Ee1), (bind_ok _ _ _ _ Ee2).
  rewrite (bind_ok _ _ _ _ Es1), (bind_ok _ _ _ _ Es2).
  rewrite (bind_ok _ _ _ _ Ew1), (bind_ok _ _ _ _ Ew2).
  rewrite (bind_ok _ _ _ _ Ec1), (bind_ok _ _ _ _ Ec2).
  rewrite !produceAlertEvent_run. rewrite !app_nil_l, <- !app_assoc.
  unfold attempts, audits in *. rewrite !filter_app.
  rewrite Ae, As, Aw, Ac, De1, De2, Ds1, Ds2, Dw1, Dw2, Dc1, Dc2.
  repeat split; reflexivity.
Qed.

(** C6: for an event past the duplicate guard whose user is known, the
    delivery attempts made do not depend on what any provider answers
    (a provider failing, on any channel and any invocation, does not stop
    the attempts on the other channels); the message emits exactly one
    audit record, after every delivery attempt, and that record is the
    same whatever the providers answer: its channel map is the permission
    of each channel (and the presence of a webhook URL), not the success
    of a delivery. *)
Theorem channel_failures_isolated_and_audited
    (hmac : string -> string -> string) (js jsp : json -> string)
    (env : Env) (redis : option RedisClient) (ev : AnomalyEvent) (uc : UserContext)
    (p : Medium -> nat -> ProviderResult) :
  fst (shouldSendAlert redis (redis_now env) (event_userId ev) (event_txId ev)) = true ->
  getUserContext (db env) (event_userId ev) = Some uc ->
  attempts (snd (eachMessage hmac js jsp (with_provider env p) redis (Some ev)))
  = attempts (snd (eachMessage hmac js jsp env redis (Some ev))) /\
  audits (snd (eachMessage hmac js jsp env redis (Some ev)))
  = [AuditSend (alert_record env ev (event_userId ev) uc)] /\
  audits (snd (eachMessage hmac js jsp (with_provider env p) redis (Some ev)))
  = [AuditSend (alert_record env ev (event_userId ev) uc)] /\
  (exists pre post,
     snd (eachMessage hmac js jsp env redis (Some ev))
     = (pre ++ AuditSend (alert_record env ev (event_userId ev) uc) :: post)%list /\
     attempts post = []) /\
  channels (alert_record env ev (event_userId ev) uc)
  = {| ch_email := canSendNotification uc EMAIL (event_severity ev);
       ch_sms := canSendNotification uc SMS (event_severity ev);
       ch_webhook := if truthy_str (ev_webhookUrl ev) then true else false;
       ch_call := canSendNotification uc VOICE (event_severity ev) |}.
Proof.
  intros Hsend Huc. unfold eachMessage.
  change (redis_now (with_provider env p)) with (redis_now env).
  destruct (shouldSendAlert redis (redis_now env) (event_userId ev) (event_txId ev))
    as [b r] eqn:Hs.
  simpl in Hsend. subst b. simpl negb. cbv iota beta. simpl snd.
  unfold process_event.
  change (db (with_provider env p)) with (db env). rewrite Huc.
  destruct (dispatch_run hmac js jsp env p ev (event_userId ev) uc)
    as [t1 [t2 [D1 [D2 [Att [Au1 Au2]]]]]].
  rewrite D1, D2.
  unfold attempts, audits in *.
  destruct (producer_up env).
  - rewrite !filter_app. simpl. rewrite Att, Au1, Au2.
    split; [reflexivity|]. split; [reflexivity|]. split; [reflexivity|].
    split; [|reflexivity].
    exists t1, []. split; reflexivity.
  - rewrite !filter_app. simpl. rewrite Att, Au1, Au2.
    split; [reflexivity|]. split; [reflexivity|]. split; [reflexivity|].
    split; [|reflexivity].
    exists t1, [ProcessingFailed]. rewrite <- app_assoc. split; reflexivity.
Qed.

Lemma channel_failures_isolated_and_audited_witness :
  fst (shouldSendAlert ready_redis 0 "u1" "tx1") = true /\
  getUserContext sample_db "u1" = getUserContext sample_db "u1" /\
  match getUserContext sample_db "u1" with
  | Some uc =>
      attempts (snd (eachMessage sample_hmac sample_stringify sample_stringify
                       (with_provider (sample_env 0) (fun _ _ => PrErr "timeout"))
                       ready_redis (Some (sample_event "u1"))))
      = attempts (snd (eachMessage sample_hmac sample_stringify sample_stringify
                         (sample_env 0) ready_redis (Some (sample_event "u1"))))
  | None => False
  end.
Proof.
  split; [reflexivity|]. split; [reflexivity|].
  destruct (getUserContext sample_db "u1") as [uc|] eqn:Huc; [|discriminate].
  apply (channel_failures_isolated_and_audited sample_hmac sample_stringify
           sample_stringify (sample_env 0) ready_redis (sample_event "u1") uc
           (fun _ _ => PrErr "timeout")); [reflexivity | exact Huc].
Defined.




(** C8: every adapter catches its provider's failures (and the webhook
    adapter resolves on any HTTP status), so the [retry] wrapped around it
    in [eachMessage] never sees a failure: the adapter is invoked exactly
    once, whatever the provider answers on later invocations, and no
    backoff wait happens. With Twilio configured and the provider timing
    out, the SMS is attempted once, logged as failed, and not retried. *)
Theorem retry_never_reinvokes_adapters
    (hmac : string -> string -> string) (js : json -> string)
    (cfg : Config) (prov : nat -> ProviderResult)
    (to subject body message url ts : string) (secret : option string) (data : json)
    (tr : list effect) :
  retry_default (fun k => sendEmailNotification cfg (prov k) to subject body) tr
  = sendEmailNotification cfg (prov 0%nat) to subject body tr /\
  retry_default (fun k => sendSmsNotification cfg (prov k) to message) tr
  = sendSmsNotification cfg (prov 0%nat) to message tr /\
  retry_default (fun k => makeCallNotification cfg (prov k) to message) tr
  = makeCallNotification cfg (prov 0%nat) to message tr /\
  retry_default (fun k => sendWebhookNotification hmac js secret (prov k) url data ts) tr
  = sendWebhookNotification hmac js secret (prov 0%nat) url data ts tr /\
  retry_default (fun _ => sendSmsNotification sample_cfg (PrErr "ETIMEDOUT") to message) []
  = ([ProviderCall MSms to message; DeliveryFailed MSms to], Ok tt).
Proof.
  destruct (quiet_email cfg (prov 0%nat) (prov 0%nat) to subject body) as [e [e' He]].
  destruct (quiet_sms cfg (prov 0%nat) (prov 0%nat) to message) as [s [s' Hs]].
  destruct (quiet_call cfg (prov 0%nat) (prov 0%nat) to message) as [c [c' Hc]].
  destruct (quiet_webhook hmac js secret (prov 0%nat) (prov 0%nat) url data ts)
    as [w [w' Hw]].
  split; [|split; [|split; [|split]]].
  - eapply (retry_default_first_ok
             (fun k => sendEmailNotification cfg (prov k) to subject body) tr _ tt).
    apply (proj1 (He tr)).
  - eapply (retry_default_first_ok
             (fun k => sendSmsNotification cfg (prov k) to message) tr _ tt).
    apply (proj1 (Hs tr)).
  - eapply (retry_default_first_ok
             (fun k => makeCallNotification cfg (prov k) to message) tr _ tt).
    apply (proj1 (Hc tr)).
  - eapply (retry_default_first_ok
             (fun k => sendWebhookNotification hmac js secret (prov k) url data ts) tr _ tt).
    apply (proj1 (Hw tr)).
  - reflexivity.
Qed.

(** * Further properties of the code *)

(** ** retry with any budget *)

(** X1: [retry(fn, retries, backoffMs)], for any budget and any base
    delay [backoffMs >= 1] whose waits [backoffMs * 2^i], [i < retries],
    are all at most [TIMEOUT_MAX] (so that Node waits exactly that long):
    an operation failing on its first [n <= retries] invocations and then
    succeeding makes [retry] succeed after [n] waits of [backoffMs * 2^i];
    an operation failing on all of its first [retries + 1] invocations
    makes [retry] re-throw the last error after [retries] waits (with
    [retries = 0], a single invocation and no wait). *)
Theorem retry_budget_policy {A} (retries : nat) (b : Z)
    (Hb : (1 <= b)%Z)
    (Hmax : forall i, (i < retries)%nat -> (b * 2 ^ Z.of_nat i <= TIMEOUT_MAX)%Z) :
  (forall i, (i < retries)%nat ->
     node_timer_delay (b * 2 ^ Z.of_nat i) = (b * 2 ^ Z.of_nat i)%Z) /\
  (forall (fn : nat -> M A) (err : nat -> string) (n : nat) (a : A) tr,
     (n <= retries)%nat ->
     (forall k t, (k < n)%nat -> fn k t = (t, Throw (err k))) ->
     (forall t, fn n t = (t, Ok a)) ->
     retry fn retries b tr = ((tr ++ waits b n)%list, Ok a)) /\
  (forall (fn : nat -> M A) (err : nat -> string) tr,
     (forall k t, (k <= retries)%nat -> fn k t = (t, Throw (err k))) ->
     retry fn retries b tr = ((tr ++ waits b retries)%list, Throw (err retries))).
Proof.
  split; [|split].
  - intros i Hi. specialize (Hmax i Hi).
    pose proof (Z.pow_pos_nonneg 2 (Z.of_nat i) ltac:(lia) ltac:(lia)) as Hp.
    unfold node_timer_delay.
    assert (H1 : Z.leb 1 (b * 2 ^ Z.of_nat i) = true) by (apply Z.leb_le; nia).
    assert (H2 : Z.leb (b * 2 ^ Z.of_nat i) TIMEOUT_MAX = true) by (apply Z.leb_le; lia).
    rewrite H1, H2. reflexivity.
  - intros fn err n a tr Hn Hfail Hok. unfold retry.
    rewrite (retry_loop_failures fn err n) by (try lia; intros k t Hk; apply Hfail; lia).
    replace (S retries - n)%nat with (S (retries - n)) by lia.
    simpl. rewrite Hok. reflexivity.
  - intros fn err tr Hfail. unfold retry.
    rewrite (retry_loop_failures fn err retries) by (try lia; intros k t Hk; apply Hfail; lia).
    replace (S retries - retries)%nat with 1%nat by lia.
    simpl. rewrite Hfail by lia.
    assert (Hlt : Nat.ltb retries (S retries) = true) by (apply Nat.ltb_lt; lia).
    rewrite Hlt. reflexivity.
Qed.

Lemma retry_budget_policy_witness :
  retry (fail_until 2) 3 500 [] = ([Wait 500; Wait 1000], Ok tt) /\
  retry (fail_until 9) 3 500 []
  = ([Wait 500; Wait 1000; Wait 2000], Throw "provider timeout").
Proof.
  assert (Hb : (1 <= 500)%Z) by lia.
  assert (Hm : forall i, (i < 3)%nat -> (500 * 2 ^ Z.of_nat i <= TIMEOUT_MAX)%Z).
  { intros i Hi. unfold TIMEOUT_MAX.
    destruct i as [|[|[|i]]]; simpl; lia. }
  destruct (@retry_budget_policy unit 3 500 Hb Hm) as [_ [Hok Hfail]].
  split.
  - rewrite (Hok (fail_until 2) (fun _ => "provider timeout") 2%nat tt []).
    + reflexivity.
    + lia.
    + intros k t Hk. unfold fail_until. destruct (Nat.ltb_spec k 2); [reflexivity | lia].
    + intros t. reflexivity.
  - rewrite (Hfail (fail_until 9) (fun _ => "provider timeout") []).
    + reflexivity.
    + intros k t Hk. unfold fail_until. destruct (Nat.ltb_spec k 9); [reflexivity | lia].
Defined.

Lemma retry_loop_ends {A} (fn : nat -> M A) :
  forall fuel attempt retries b tr,
    fuel = S (retries - attempt) -> (attempt <= retries)%nat ->
    (forall k t, snd (fn k t) <> NoFuel) ->
    snd (retry_loop fuel fn attempt retries b tr) <> NoFuel.
Proof.
  induction fuel as [|fuel IH]; intros attempt retries b tr Hf Hle Hfn; [discriminate|].
  simpl. specialize (Hfn attempt tr) as Hat.
  destruct (fn attempt tr) as [tr1 [a|e|]]; simpl; try discriminate.
  - destruct (Nat.ltb retries (S attempt)) eqn:Hlt; [discriminate|].
    apply Nat.ltb_ge in Hlt. apply IH; auto; lia.
  - simpl in Hat. contradiction.
Qed.

(** X2: [retry] invokes the operation at most [retries + 1] times: its
    result only depends on the invocations [0 .. retries], and the
    [while (true)] loop always ends with a success or an error of the
    operation, never by going on. *)
Theorem retry_ends_within_budget {A} (fn fn' : nat -> M A) (retries : nat) (b : Z)
    (tr : list effect) :
  ((forall k t, (k <= retries)%nat -> fn k t = fn' k t) ->
   retry fn retries b tr = retry fn' retries b tr) /\
  ((forall k t, snd (fn k t) <> NoFuel) -> snd (retry fn retries b tr) <> NoFuel).
Proof.
  split.
  - intros Heq. unfold retry. apply retry_loop_only_first; [lia|].
    intros k t Hk. apply Heq. lia.
  - intros Hfn. unfold retry. apply retry_loop_ends; auto; lia.
Qed.

Lemma retry_ends_within_budget_witness :
  retry (fail_until 5) 2 100 [] = retry (fun _ => fail_until 7 0%nat) 2 100 [] /\
  snd (retry (fail_until 5) 2 100 []) <> NoFuel.
Proof.
  destruct (@retry_ends_within_budget unit (fail_until 5) (fun _ => fail_until 7 0%nat)
              2 100 []) as [H1 H2].
  split.
  - apply H1. intros k t Hk. unfold fail_until.
    destruct (Nat.ltb_spec k 5); [reflexivity | lia].
  - apply H2. intros k t. unfold fail_until. destruct (Nat.ltb k 5); discriminate.
Defined.

(** ** The Redis reconnection strategy *)

(** X3: ioredis is told to stop reconnecting from the fourth attempt on;
    before that the delay is [times * 50] ms, so the 2000 ms cap of
    [Math.min] is never reached (at most 150 ms for attempts 1..3). *)
Theorem retryStrategy_stops_after_three (times : Z) :
  (retryStrategy times = None <-> (3 < times)%Z) /\
  ((times <= 3)%Z -> retryStrategy times = Some (times * 50)%Z /\ (times * 50 <= 150)%Z).
Proof.
  unfold retryStrategy. split.
  - destruct (Z.ltb_spec 3 times); split; intros H'; try discriminate; try lia; reflexivity.
  - intros H. destruct (Z.ltb_spec 3 times); [lia|].
    split; [|lia]. f_equal. lia.
Qed.

Lemma retryStrategy_stops_after_three_witness :
  retryStrategy 3 = Some 150%Z /\ retryStrategy 4 = None.
Proof.
  split.
  - apply (proj2 (retryStrategy_stops_after_three 3)). lia.
  - apply (proj2 (proj1 (retryStrategy_stops_after_three 4))). lia.
Defined.

(** ** The duplicate guard *)

Lemma key_live_claim (now e : Z) (key : string) (st : list (string * Z)) :
  key_live now key ((key, e) :: filter (fun kv => negb (String.eqb (fst kv) key)) st)
  = Z.ltb now e.
Proof.
  unfold key_live. simpl. rewrite String.eqb_refl. simpl.
  induction st as [|[k v] st IH]; simpl; [apply orb_false_r|].
  destruct (String.eqb k key) eqn:Ek; simpl; [exact IH|].
  rewrite Ek. simpl. exact IH.
Qed.

(** Once a message has claimed the key of [ev1], a message whose
    deduplication key is the same and which comes within the TTL is
    dropped. *)
Lemma second_event_suppressed hmac js jsp (c : RedisClient) (env1 env2 : Env)
    (ev1 ev2 : AnomalyEvent) :
  status c = "ready" -> reachable c = true ->
  key_live (redis_now env1) (dedup_key (event_userId ev1) (event_txId ev1)) (store c) = false ->
  dedup_key (event_userId ev2) (event_txId ev2) = dedup_key (event_userId ev1) (event_txId ev1) ->
  (redis_now env2 < redis_now env1 + DEDUP_TTL_SECONDS)%Z ->
  snd (eachMessage hmac js jsp env2
         (fst (eachMessage hmac js jsp env1 (Some c) (Some ev1))) (Some ev2)) = [].
Proof.
  intros Hs Hr Hl Hk Ht.
  pose proof (eachMessage_ready hmac js jsp env1 c ev1 Hs Hr) as E1. cbv zeta in E1.
  rewrite E1, Hl. simpl fst.
  pose proof (eachMessage_ready hmac js jsp env2
                (with_store c ((dedup_key (event_userId ev1) (event_txId ev1),
                                (redis_now env1 + DEDUP_TTL_SECONDS)%Z)
                               :: filter (fun kv => negb (String.eqb (fst kv)
                                            (dedup_key (event_userId ev1) (event_txId ev1))))
                                    (store c))) ev2 Hs Hr) as E2.
  cbv zeta in E2. rewrite E2, Hk. simpl store. rewrite key_live_claim.
  apply Z.ltb_lt in Ht. rewrite Ht. reflexivity.
Qed.

(** X4: with the cache available, the first call for a key that is not
    held claims it; a later call for the same user and transaction is
    suppressed exactly while fewer than [DEDUP_TTL_SECONDS] seconds have
    passed, and lets the alert through from then on. *)
Theorem shouldSendAlert_lease_window (c : RedisClient) (t t' : Z) (uid txId : string) :
  status c = "ready" -> reachable c = true ->
  key_live t (dedup_key uid txId) (store c) = false ->
  fst (shouldSendAlert (Some c) t uid txId) = true /\
  fst (shouldSendAlert (snd (shouldSendAlert (Some c) t uid txId)) t' uid txId)
  = Z.leb (t + DEDUP_TTL_SECONDS) t'.
Proof.
  intros Hs Hr Hl. rewrite (shouldSendAlert_ready c) by assumption. rewrite Hl.
  split; [reflexivity|]. simpl snd.
  rewrite shouldSendAlert_ready by (simpl; assumption). simpl store.
  rewrite key_live_claim.
  destruct (Z.ltb_spec t' (t + DEDUP_TTL_SECONDS)); destruct (Z.leb_spec (t + DEDUP_TTL_SECONDS) t');
    try lia; reflexivity.
Qed.

Lemma shouldSendAlert_lease_window_witness :
  fst (shouldSendAlert (snd (shouldSendAlert (Some fresh_client) 100 "u1" "tx1")) 3699 "u1" "tx1")
  = false /\
  fst (shouldSendAlert (snd (shouldSendAlert (Some fresh_client) 100 "u1" "tx1")) 3700 "u1" "tx1")
  = true.
Proof.
  split.
  - refine (proj2 (shouldSendAlert_lease_window fresh_client 100 3699 "u1" "tx1" _ _ _));
      reflexivity.
  - refine (proj2 (shouldSendAlert_lease_window fresh_client 100 3700 "u1" "tx1" _ _ _));
      reflexivity.
Defined.

(** X5: [shouldSendAlert] answers [false] only when a client exists, is
    ['ready'], its SET reaches the server and the key is held at that
    second; and a [false] answer leaves the cache as it was. *)
Theorem shouldSendAlert_false_only_on_live_lease (redis r : option RedisClient) (now : Z)
    (uid txId : string) :
  shouldSendAlert redis now uid txId = (false, r) ->
  r = redis /\
  exists c, redis = Some c /\ status c = "ready" /\ reachable c = true /\
            key_live now (dedup_key uid txId) (store c) = true.
Proof.
  intros H. destruct redis as [c|]; [|discriminate].
  unfold shouldSendAlert in H.
  destruct (String.eqb (status c) "ready") eqn:Es; simpl in H; [|discriminate].
  unfold redis_set_nx_ex in H.
  destruct (reachable c) eqn:Er; simpl in H; [|discriminate].
  destruct (key_live now (dedup_key uid txId) (store c)) eqn:Ek; [|discriminate].
  injection H as <-. split; [reflexivity|].
  exists c. apply String.eqb_eq in Es. auto.
Qed.

Lemma shouldSendAlert_false_only_on_live_lease_witness :
  shouldSendAlert (Some leased_client) 0 "u1" "tx1" = (false, Some leased_client) /\
  key_live 0 (dedup_key "u1" "tx1") (store leased_client) = true.
Proof.
  assert (H : shouldSendAlert (Some leased_client) 0 "u1" "tx1" = (false, Some leased_client))
    by reflexivity.
  split; [exact H|].
  destruct (shouldSendAlert_false_only_on_live_lease _ _ _ _ _ H) as [_ [c [E [_ [_ K]]]]].
  injection E as <-. exact K.
Defined.

Lemma str_app_assoc (a b c : string) : ((a ++ b) ++ c = a ++ b ++ c)%string.
Proof. induction a as [|x a IH]; simpl; [reflexivity|]. rewrite IH. reflexivity. Qed.

Lemma str_length_app (a b : string) :
  String.length (a ++ b) = (String.length a + String.length b)%nat.
Proof. induction a as [|x a IH]; simpl; [reflexivity|]. rewrite IH. reflexivity. Qed.

Lemma dedup_key_shift (u m t : string) :
  dedup_key (u ++ ":" ++ m) t = dedup_key u (m ++ ":" ++ t).
Proof. unfold dedup_key. rewrite !str_app_assoc. reflexivity. Qed.

(** X6: the key [alert:<userId>:<txId>] does not separate the user id from
    the transaction id when the user id contains [':']: an event of user
    [u ++ ":" ++ m] with transaction [t] is dropped as a duplicate of an
    event of the other user [u] with transaction [m ++ ":" ++ t] seen
    within the TTL. *)
Theorem dedup_key_collision_across_users hmac js jsp (c : RedisClient) (env1 env2 : Env)
    (ev1 ev2 : AnomalyEvent) (u m t : string) :
  status c = "ready" -> reachable c = true ->
  event_userId ev1 = u -> event_txId ev1 = (m ++ ":" ++ t)%string ->
  event_userId ev2 = (u ++ ":" ++ m)%string -> event_txId ev2 = t ->
  key_live (redis_now env1) (dedup_key u (m ++ ":" ++ t)) (store c) = false ->
  (redis_now env2 < redis_now env1 + DEDUP_TTL_SECONDS)%Z ->
  event_userId ev2 <> event_userId ev1 /\
  snd (eachMessage hmac js jsp env2
         (fst (eachMessage hmac js jsp env1 (Some c) (Some ev1))) (Some ev2)) = [].
Proof.
  intros Hs Hr U1 T1 U2 T2 Hl Ht. split.
  - rewrite U1, U2. intros E. apply (f_equal String.length) in E.
    rewrite str_length_app in E. simpl in E. lia.
  - apply second_event_suppressed; auto.
    + rewrite U1, T1. exact Hl.
    + rewrite U1, T1, U2, T2. apply dedup_key_shift.
Qed.

Lemma dedup_key_collision_across_users_witness :
  snd (eachMessage sample_hmac sample_stringify sample_stringify (sample_env 60)
         (fst (eachMessage sample_hmac sample_stringify sample_stringify (sample_env 0)
                 (Some fresh_client) (Some (sample_event_tx "a" "b:c"))))
         (Some (sample_event_tx "a:b" "c"))) = [].
Proof.
  refine (proj2 (dedup_key_collision_across_users sample_hmac sample_stringify sample_stringify
                   fresh_client (sample_env 0) (sample_env 60)
                   (sample_event_tx "a" "b:c") (sample_event_tx "a:b" "c") "a" "b" "c"
                   _ _ _ _ _ _ _ _)); reflexivity.
Defined.

Lemma str_app_cancel_l (p a b : string) : (p ++ a = p ++ b)%string -> a = b.
Proof. induction p as [|x p IH]; simpl; intros E; [exact E|]. injection E. exact IH. Qed.

Lemma colon_split (u1 u2 t1 t2 : string) :
  colon_free u1 = true -> colon_free u2 = true ->
  (u1 ++ String ":" t1 = u2 ++ String ":" t2)%string -> u1 = u2 /\ t1 = t2.
Proof.
  revert u2. induction u1 as [|a u1 IH]; intros u2 H1 H2 E; destruct u2 as [|b u2];
    simpl in E.
  - injection E. auto.
  - injection E as Eb _. subst b. discriminate H2.
  - injection E as Ea _. subst a. discriminate H1.
  - injection E as Eab E'. subst b. simpl in H1, H2.
    apply andb_prop in H1, H2.
    destruct (IH u2 (proj2 H1) (proj2 H2) E') as [-> ->]. auto.
Qed.

(** X7: for user ids without [':'] the deduplication key is injective:
    two (user, transaction) pairs share a key only when they are equal. *)
Theorem dedup_key_injective (u1 u2 t1 t2 : string) :
  colon_free u1 = true -> colon_free u2 = true ->
  dedup_key u1 t1 = dedup_key u2 t2 -> u1 = u2 /\ t1 = t2.
Proof.
  intros H1 H2 E. unfold dedup_key in E.
  apply str_app_cancel_l in E. exact (colon_split u1 u2 t1 t2 H1 H2 E).
Qed.

Lemma dedup_key_injective_witness :
  colon_free "alice" = true /\ colon_free "bob" = true /\
  dedup_key "alice" "tx1" <> dedup_key "bob" "tx1".
Proof.
  split; [reflexivity|]. split; [reflexivity|]. intros E.
  destruct (dedup_key_injective "alice" "bob" "tx1" "tx1" eq_refl eq_refl E) as [U _].
  discriminate U.
Defined.

Lemma event_txId_missing (ev : AnomalyEvent) :
  no_tx_id ev -> event_txId ev = "unknown_tx".
Proof.
  intros [H1 [H2 H3]]. unfold event_txId, js_or_default, js_or.
  rewrite H1. cbv iota. rewrite H2. cbv iota. rewrite H3. reflexivity.
Qed.

(** X8: events carrying none of [data.tx_id], [tx_id] and [id] (or only
    empty ones) all get the transaction id ['unknown_tx']: two such events
    of one user within the TTL share a key, and the second is dropped
    whatever it reports. *)
Theorem events_without_tx_id_share_lease hmac js jsp (c : RedisClient) (env1 env2 : Env)
    (ev1 ev2 : AnomalyEvent) :
  status c = "ready" -> reachable c = true -> no_tx_id ev1 -> no_tx_id ev2 ->
  event_userId ev2 = event_userId ev1 ->
  key_live (redis_now env1) (dedup_key (event_userId ev1) "unknown_tx") (store c) = false ->
  (redis_now env2 < redis_now env1 + DEDUP_TTL_SECONDS)%Z ->
  event_txId ev1 = "unknown_tx" /\ event_txId ev2 = "unknown_tx" /\
  snd (eachMessage hmac js jsp env2
         (fst (eachMessage hmac js jsp env1 (Some c) (Some ev1))) (Some ev2)) = [].
Proof.
  intros Hs Hr N1 N2 U Hl Ht.
  pose proof (event_txId_missing ev1 N1) as T1.
  pose proof (event_txId_missing ev2 N2) as T2.
  split; [exact T1|]. split; [exact T2|].
  apply second_event_suppressed; auto.
  - rewrite T1. exact Hl.
  - rewrite T1, T2, U. reflexivity.
Qed.

Lemma events_without_tx_id_share_lease_witness :
  snd (eachMessage sample_hmac sample_stringify sample_stringify (sample_env 600)
         (fst (eachMessage sample_hmac sample_stringify sample_stringify (sample_env 0)
                 (Some fresh_client) (Some (untagged_event "u1" LOW))))
         (Some (untagged_event "u1" CRITICAL))) = [].
Proof.
  refine (proj2 (proj2 (events_without_tx_id_share_lease sample_hmac sample_stringify
                          sample_stringify fresh_client (sample_env 0) (sample_env 600)
                          (untagged_event "u1" LOW) (untagged_event "u1" CRITICAL)
                          _ _ _ _ _ _ _)));
    try reflexivity; repeat split.
Defined.

(** ** The user context *)

(** X9: a user row without subscription and without notification
    settings gets the FREE plan, no phone, and email only: email is
    permitted at every severity, SMS and calls never. *)
Theorem bare_user_gets_email_only (db0 : Db) (uid : string) (row : UserRow) :
  db0 uid = DbRow (Some row) ->
  u_subscription row = None -> u_notificationSettings row = None ->
  exists ctx, getUserContext db0 uid = Some ctx /\ plan ctx = FREE /\ phone ctx = None /\
    forall sev, canSendNotification ctx EMAIL sev = true /\
                canSendNotification ctx SMS sev = false /\
                canSendNotification ctx VOICE sev = false.
Proof.
  intros Hdb Hs Hn. unfold getUserContext. rewrite Hdb, Hs, Hn.
  eexists. split; [reflexivity|]. simpl. repeat split.
Qed.

Lemma bare_user_gets_email_only_witness :
  match getUserContext (fun _ => DbRow (Some bare_user_row)) "u3" with
  | Some ctx => canSendNotification ctx SMS CRITICAL = false
  | None => False
  end.
Proof.
  destruct (bare_user_gets_email_only (fun _ => DbRow (Some bare_user_row)) "u3"
              bare_user_row eq_refl eq_refl eq_refl) as [ctx [E [_ [_ H]]]].
  rewrite E. apply (H CRITICAL).
Defined.

(** X10: a context returned by [getUserContext] never carries the empty
    string as phone (an empty [phoneNumber] becomes [null]) and its
    [features] are always truthy (a [null] column becomes [{}]). *)
Theorem getUserContext_normalises (db0 : Db) (uid : string) (ctx : UserContext) :
  getUserContext db0 uid = Some ctx ->
  phone ctx <> Some "" /\ json_truthy (features ctx) = true.
Proof.
  unfold getUserContext. intros H.
  destruct (db0 uid) as [[row|]|]; try discriminate.
  injection H as <-. simpl. split.
  - destruct (u_notificationSettings row) as [n|]; [|discriminate].
    unfold truthy_str. destruct (ns_phoneNumber n) as [p|]; [|discriminate].
    destruct (String.eqb_spec p ""); [discriminate|].
    intros E. injection E. assumption.
  - destruct (u_subscription row) as [sb|]; [|reflexivity].
    destruct (json_truthy (sub_features sb)) eqn:E; [exact E|reflexivity].
Qed.

Lemma getUserContext_normalises_witness :
  getUserContext (fun _ => DbRow (Some {| u_id := "u5"; u_email := None;
      u_subscription := Some {| sub_plan := BASIC; sub_features := JNull |};
      u_notificationSettings := Some {| ns_phoneNumber := Some ""; ns_emailEnabled := false;
        ns_phoneEnabled := true; ns_minSeverityForCall := HIGH |} |})) "u5"
  = Some {| userId := "u5"; email := None; phone := None; plan := BASIC;
            features := JObj [];
            settings := {| emailEnabled := false; phoneEnabled := true;
                           minSeverityForCall := HIGH |} |} /\
  json_truthy (JObj []) = true.
Proof.
  split; [reflexivity|].
  exact (proj2 (getUserContext_normalises (fun _ => DbRow (Some {| u_id := "u5"; u_email := None;
      u_subscription := Some {| sub_plan := BASIC; sub_features := JNull |};
      u_notificationSettings := Some {| ns_phoneNumber := Some ""; ns_emailEnabled := false;
        ns_phoneEnabled := true; ns_minSeverityForCall := HIGH |} |})) "u5"
    {| userId := "u5"; email := None; phone := None; plan := BASIC; features := JObj [];
       settings := {| emailEnabled := false; phoneEnabled := true;
                      minSeverityForCall := HIGH |} |} eq_refl)).
Defined.

(** ** The channel blocks of eachMessage *)

(** X11: an event without [severity] is handled as MEDIUM: it never
    places a call, and the audit record says so. *)
Theorem missing_severity_never_calls (env : Env) (ev : AnomalyEvent) (uid : string)
    (uc : UserContext) (tr : list effect) :
  ev_severity ev = None ->
  event_severity ev = MEDIUM /\ call_block env ev uid uc tr = (tr, Ok tt) /\
  ch_call (channels (alert_record env ev uid uc)) = false.
Proof.
  intros H.
  assert (Es : event_severity ev = MEDIUM) by (unfold event_severity; rewrite H; reflexivity).
  assert (V : canSendNotification uc VOICE MEDIUM = false)
    by (unfold canSendNotification; destruct (plan uc); reflexivity).
  split; [exact Es|]. split.
  - unfold call_block. rewrite Es, V. reflexivity.
  - change (ch_call (channels (alert_record env ev uid uc)))
      with (canSendNotification uc VOICE (event_severity ev)).
    rewrite Es. exact V.
Qed.

Lemma missing_severity_never_calls_witness :
  call_block (sample_env 0) (unrated_event "u1") "u1"
    {| userId := "u1"; email := None; phone := Some "+15551234567"; plan := PRO;
       features := JObj [];
       settings := {| emailEnabled := true; phoneEnabled := true;
                      minSeverityForCall := LOW |} |} [] = ([], Ok tt).
Proof.
  exact (proj1 (proj2 (missing_severity_never_calls (sample_env 0) (unrated_event "u1") "u1"
    {| userId := "u1"; email := None; phone := Some "+15551234567"; plan := PRO;
       features := JObj [];
       settings := {| emailEnabled := true; phoneEnabled := true;
                      minSeverityForCall := LOW |} |} [] eq_refl))).
Defined.

(** X12: the channel map of the audit record reports permission, not
    delivery: a permitted channel with no address (neither in the
    database nor in the event) is reported [true] while nothing is sent
    on it; without a phone, neither the SMS nor the call is made. *)
Theorem audit_reports_permission_not_delivery jsp (env : Env) (ev : AnomalyEvent)
    (uid : string) (uc : UserContext) (tr : list effect) :
  (canSendNotification uc EMAIL (event_severity ev) = true ->
   truthy_str (js_or (email uc) (ev_email ev)) = None ->
   email_block jsp env ev uid uc tr = (tr, Ok tt) /\
   ch_email (channels (alert_record env ev uid uc)) = true) /\
  (canSendNotification uc SMS (event_severity ev) = true ->
   truthy_str (js_or (phone uc) (ev_phone ev)) = None ->
   sms_block env ev uid uc tr = (tr, Ok tt) /\ call_block env ev uid uc tr = (tr, Ok tt) /\
   ch_sms (channels (alert_record env ev uid uc)) = true).
Proof.
  split.
  - intros H1 H2. split.
    + unfold email_block. rewrite H1, H2. reflexivity.
    + exact H1.
  - intros H1 H2. split; [|split].
    + unfold sms_block. rewrite H1, H2. reflexivity.
    + unfold call_block. rewrite H2.
      destruct (canSendNotification uc VOICE (event_severity ev)); reflexivity.
    + exact H1.
Qed.

Lemma audit_reports_permission_not_delivery_witness :
  email_block sample_stringify (sample_env 0) (sample_event "u4") "u4" no_contact_ctx []
  = ([], Ok tt) /\
  ch_email (channels (alert_record (sample_env 0) (sample_event "u4") "u4" no_contact_ctx))
  = true.
Proof.
  exact (proj1 (audit_reports_permission_not_delivery sample_stringify (sample_env 0)
                  (sample_event "u4") "u4" no_contact_ctx [])
           eq_refl eq_refl).
Defined.






(** The effects of [dispatch] are those of each block run on its own, in
    order, then the audit record. *)
Lemma dispatch_blocks hmac js jsp (env : Env) (ev : AnomalyEvent) (uid : string)
    (uc : UserContext) :
  dispatch hmac js jsp env ev uid uc []
  = ((fst (email_block jsp env ev uid uc []) ++ fst (sms_block env ev uid uc [])
      ++ fst (webhook_block hmac js env ev uid []) ++ fst (call_block env ev uid uc [])
      ++ [AuditSend (alert_record env ev uid uc)])%list,
     if producer_up env then Ok tt else Throw "producer.send rejected").
Proof.
  destruct (quiet_blocks hmac js jsp env (provider env) ev uid uc)
    as [[e1 [e2 He]] [[s1 [s2 Hs]] [[w1 [w2 Hw]] [c1 [c2 Hc]]]]].
  assert (Fe : fst (email_block jsp env ev uid uc []) = e1)
    by (destruct (He []) as [E _]; rewrite E; reflexivity).
  assert (Fs : fst (sms_block env ev uid uc []) = s1)
    by (destruct (Hs []) as [E _]; rewrite E; reflexivity).
  assert (Fw : fst (webhook_block hmac js env ev uid []) = w1)
    by (destruct (Hw []) as [E _]; rewrite E; reflexivity).
  assert (Fc : fst (call_block env ev uid uc []) = c1)
    by (destruct (Hc []) as [E _]; rewrite E; reflexivity).
  rewrite Fe, Fs, Fw, Fc.
  destruct (He []) as [Ee _].
  destruct (Hs ([] ++ e1)%list) as [Es _].
  destruct (Hw (([] ++ e1) ++ s1)%list) as [Ew _].
  destruct (Hc ((([] ++ e1) ++ s1) ++ w1)%list) as [Ec _].
  unfold dispatch.
  rewrite (bind_ok _ _ _ _ Ee), (bind_ok _ _ _ _ Es), (bind_ok _ _ _ _ Ew),
    (bind_ok _ _ _ _ Ec).
  rewrite produceAlertEvent_run. rewrite !app_nil_l, <- !app_assoc. reflexivity.
Qed.

(** X14: for a user that is found, the effects of the message are those
    of the email, SMS, webhook and call blocks, each as it would run on
    its own, in this order, then the one audit record; the message ends
    in the failure branch exactly when the producer rejects the record. *)
Theorem process_event_trace hmac js jsp (env : Env) (ev : AnomalyEvent) (uid : string)
    (uc : UserContext) :
  getUserContext (db env) uid = Some uc ->
  process_event hmac js jsp env ev uid
  = (fst (email_block jsp env ev uid uc []) ++ fst (sms_block env ev uid uc [])
     ++ fst (webhook_block hmac js env ev uid []) ++ fst (call_block env ev uid uc [])
     ++ AuditSend (alert_record env ev uid uc)
     :: (if producer_up env then [] else [ProcessingFailed]))%list.
Proof.
  intros H. unfold process_event. rewrite H, dispatch_blocks.
  remember (fst (email_block jsp env ev uid uc [])) as te.
  remember (fst (sms_block env ev uid uc [])) as ts.
  remember (fst (webhook_block hmac js env ev uid [])) as tw.
  remember (fst (call_block env ev uid uc [])) as tc.
  destruct (producer_up env); simpl; [reflexivity|].
  rewrite <- !app_assoc. reflexivity.
Qed.

Lemma process_event_trace_witness :
  process_event sample_hmac sample_stringify sample_stringify failing_env
    (sample_event "u1") "u1"
  = [ProviderCall MEmail "u1@example.com" "{...}"; DeliveryFailed MEmail "u1@example.com";
     ProviderCall MSms "+15551234567" "Anomaly detected for u1. Severity: CRITICAL";
     DeliveryFailed MSms "+15551234567";
     ProviderCall MCall "+15551234567"
       "Critical anomaly detected for user u1. Please check immediately.";
     DeliveryFailed MCall "+15551234567";
     AuditSend (alert_record failing_env (sample_event "u1") "u1"
       {| userId := "u1"; email := Some "u1@example.com"; phone := Some "+15551234567";
          plan := PRO; features := JObj [];
          settings := {| emailEnabled := true; phoneEnabled := true;
                         minSeverityForCall := CRITICAL |} |});
     ProcessingFailed].
Proof.
  rewrite (process_event_trace sample_hmac sample_stringify sample_stringify failing_env
             (sample_event "u1") "u1"
             {| userId := "u1"; email := Some "u1@example.com"; phone := Some "+15551234567";
                plan := PRO; features := JObj [];
                settings := {| emailEnabled := true; phoneEnabled := true;
                               minSeverityForCall := CRITICAL |} |} eq_refl).
  reflexivity.
Defined.

Lemma webhook_block_posts hmac js (env : Env) (ev : AnomalyEvent) (uid url : string) :
  truthy_str (ev_webhookUrl ev) = Some url ->
  In (WebhookPost url
        (webhook_headers hmac (WEBHOOK_SIGNING_SECRET (config env)) (clock_ms env)
           (js (JObj [("userId", JStr uid); ("event", ev_raw ev)])))
        (js (JObj [("userId", JStr uid); ("event", ev_raw ev)])))
     (fst (webhook_block hmac js env ev uid [])).
Proof.
  intros H. unfold webhook_block. rewrite H.
  set (data := JObj [("userId", JStr uid); ("event", ev_raw ev)]).
  destruct (quiet_webhook hmac js (WEBHOOK_SIGNING_SECRET (config env))
              (provider env MWebhook 0) (provider env MWebhook 0) url data (clock_ms env))
    as [t1 [t2 Hq]].
  destruct (Hq []) as [E _].
  rewrite (retry_default_first_ok (fun k => sendWebhookNotification hmac js
             (WEBHOOK_SIGNING_SECRET (config env)) (provider env MWebhook k) url data
             (clock_ms env)) [] _ tt E).
  clear Hq E. unfold sendWebhookNotification, bind, tell, ret.
  destruct (provider env MWebhook 0) as [st|e];
    [destruct (Z.leb 200 st && Z.ltb st 300)%bool|]; simpl; left; reflexivity.
Qed.

(** X15: the webhook is gated by no plan and no setting: for any user that
    is found, whatever its plan and preferences, an event past the
    duplicate guard with a webhook URL makes the service POST
    [{userId, event}] to that URL. *)
Theorem webhook_sent_for_any_known_user hmac js jsp (env : Env) (redis : option RedisClient)
    (ev : AnomalyEvent) (uc : UserContext) (url : string) :
  fst (shouldSendAlert redis (redis_now env) (event_userId ev) (event_txId ev)) = true ->
  getUserContext (db env) (event_userId ev) = Some uc ->
  truthy_str (ev_webhookUrl ev) = Some url ->
  let data := JObj [("userId", JStr (event_userId ev)); ("event", ev_raw ev)] in
  In (WebhookPost url
        (webhook_headers hmac (WEBHOOK_SIGNING_SECRET (config env)) (clock_ms env) (js data))
        (js data))
     (snd (eachMessage hmac js jsp env redis (Some ev))).
Proof.
  intros Hsend Huc Hurl data. unfold eachMessage.
  destruct (shouldSendAlert redis (redis_now env) (event_userId ev) (event_txId ev))
    as [b r] eqn:Hs.
  simpl in Hsend. subst b. simpl negb. cbv iota beta. simpl snd.
  unfold process_event. rewrite Huc, dispatch_blocks.
  pose proof (webhook_block_posts hmac js env ev (event_userId ev) url Hurl) as Hin.
  remember (fst (email_block jsp env ev (event_userId ev) uc [])) as te.
  remember (fst (sms_block env ev (event_userId ev) uc [])) as ts.
  remember (fst (webhook_block hmac js env ev (event_userId ev) [])) as tw.
  remember (fst (call_block env ev (event_userId ev) uc [])) as tc.
  destruct (producer_up env); simpl; rewrite !in_app_iff; tauto.
Qed.

Lemma webhook_sent_for_any_known_user_witness :
  In (WebhookPost "https://hooks.example.com/a"
        (webhook_headers sample_hmac (Some "whsec_test") "1700000000000"
           (sample_stringify (JObj [("userId", JStr "u3");
                                    ("event", ev_raw (unrated_event "u3"))])))
        (sample_stringify (JObj [("userId", JStr "u3"); ("event", ev_raw (unrated_event "u3"))])))
     (snd (eachMessage sample_hmac sample_stringify sample_stringify
             {| db := fun _ => DbRow (Some bare_user_row); redis_now := 0;
                clock_ms := "1700000000000"; clock_iso := "t"; config := sample_cfg;
                provider := fun _ _ => PrOk 200; producer_up := true |}
             ready_redis (Some (unrated_event "u3")))).
Proof.
  exact (webhook_sent_for_any_known_user sample_hmac sample_stringify sample_stringify
    {| db := fun _ => DbRow (Some bare_user_row); redis_now := 0;
       clock_ms := "1700000000000"; clock_iso := "t"; config := sample_cfg;
       provider := fun _ _ => PrOk 200; producer_up := true |}
    ready_redis (unrated_event "u3")
    {| userId := "u3"; email := Some "u3@example.com"; phone := None; plan := FREE;
       features := JObj [];
       settings := {| emailEnabled := true; phoneEnabled := false;
                      minSeverityForCall := CRITICAL |} |}
    "https://hooks.example.com/a" eq_refl eq_refl eq_refl).
Defined.

(** ** The test routes (api/routes.ts) *)

(** X16: POST /v1/notifications/test/webhook answers 400 and sends
    nothing when [url] or [data] is missing or falsy; otherwise it makes
    exactly one POST to [url], whose body is axios' serialisation of
    [data] and whose headers are those of [JSON.stringify(data)] (signed
    with [WEBHOOK_SIGNING_SECRET] when that is set), and answers 200 with
    [success: true] whatever the endpoint answers (a non-2xx status or a
    network error only adds the failure log line). *)
Theorem test_webhook_route_contract hmac js (cfg : Config) (res : ProviderResult)
    (url : option string) (data : option json) (ts : string) (tr : list effect) :
  (truthy_str url = None \/ data = None \/
   (exists d, data = Some d /\ json_truthy d = false) ->
   test_webhook_route hmac js cfg res url data ts tr
   = (tr, Ok (route_reply 400 false "url and data are required"))) /\
  (forall u d, truthy_str url = Some u -> data = Some d -> json_truthy d = true ->
   exists rest,
     test_webhook_route hmac js cfg res url data ts tr
     = ((tr ++ WebhookPost u (webhook_headers hmac (WEBHOOK_SIGNING_SECRET cfg) ts (js d))
                  (axios_json_body js d) :: rest)%list,
        Ok (route_reply 200 true "Test webhook sent")) /\
     attempts rest = []).
Proof.
  split.
  - intros H. unfold test_webhook_route. cbv zeta.
    destruct H as [Hu | [Hd | [d [Hd Hf]]]].
    + rewrite Hu. reflexivity.
    + subst data. destruct (truthy_str url); reflexivity.
    + subst data. rewrite Hf. destruct (truthy_str url); reflexivity.
  - intros u d Hu Hd Hf. subst data. unfold test_webhook_route. cbv zeta.
    rewrite Hu, Hf.
    unfold sendWebhookNotification, bind, tell, ret.
    destruct res as [st|e]; [destruct (Z.leb 200 st && Z.ltb st 300)%bool|];
      simpl; rewrite <- ?app_assoc;
      eexists; (split; [reflexivity|reflexivity]).
Qed.

Lemma test_webhook_route_contract_witness :
  test_webhook_route sample_hmac sample_stringify sample_cfg (PrOk 200)
    (Some "") (Some (JObj [])) "1700000000000" []
  = ([], Ok (route_reply 400 false "url and data are required")) /\
  snd (test_webhook_route sample_hmac sample_stringify sample_cfg (PrOk 503)
         (Some "https://hooks.example.com/a") (Some (JObj [("k", JNum 1)]))
         "1700000000000" [])
  = Ok (route_reply 200 true "Test webhook sent").
Proof.
  split.
  - apply (proj1 (test_webhook_route_contract sample_hmac sample_stringify sample_cfg
                    (PrOk 200) (Some "") (Some (JObj [])) "1700000000000" [])).
    left. reflexivity.
  - destruct (proj2 (test_webhook_route_contract sample_hmac sample_stringify sample_cfg
                       (PrOk 503) (Some "https://hooks.example.com/a")
                       (Some (JObj [("k", JNum 1)])) "1700000000000" [])
                "https://hooks.example.com/a" (JObj [("k", JNum 1)]) eq_refl eq_refl eq_refl)
      as [rest [E _]].
    rewrite E. reflexivity.
Defined.

(** X17: the test email and SMS routes always answer [success: true]:
    the adapters never reject, so a failed delivery (the provider
    rejecting the request) is only visible in the log. *)
Theorem test_routes_report_success (cfg : Config) (res : ProviderResult)
    (to subject body message : string) (tr : list effect) :
  snd (test_email_route cfg res to subject body tr)
  = Ok (route_reply 200 true "Test email sent (logged)") /\
  snd (test_sms_route cfg res to message tr)
  = Ok (route_reply 200 true "Test SMS sent (logged)") /\
  (forall e, smtp_configured cfg = true -> res = PrErr e ->
   fst (test_email_route cfg res to subject body tr)
   = (tr ++ [ProviderCall MEmail to body; DeliveryFailed MEmail to])%list) /\
  (forall e, twilio_sms_configured cfg = true -> truthy_str (TWILIO_PHONE_NUMBER cfg) <> None ->
   res = PrErr e ->
   fst (test_sms_route cfg res to message tr)
   = (tr ++ [ProviderCall MSms to message; DeliveryFailed MSms to])%list).
Proof.
  unfold test_email_route, test_sms_route, sendEmailNotification, sendSmsNotification,
    bind, tell, ret.
  split; [|split; [|split]].
  - destruct (smtp_configured cfg); [destruct res|]; reflexivity.
  - destruct (twilio_sms_configured cfg);
      [destruct (truthy_str (TWILIO_PHONE_NUMBER cfg)); [destruct res|]|]; reflexivity.
  - intros e H Hr. rewrite H, Hr. simpl. rewrite <- app_assoc. reflexivity.
  - intros e H Hn Hr. rewrite H, Hr. simpl.
    destruct (truthy_str (TWILIO_PHONE_NUMBER cfg)); [|contradiction].
    rewrite <- app_assoc. reflexivity.
Qed.

Lemma test_routes_report_success_witness :
  test_email_route sample_cfg (PrErr "ECONNREFUSED") "ops@example.com" "s" "b" []
  = ([ProviderCall MEmail "ops@example.com" "b"; DeliveryFailed MEmail "ops@example.com"],
     Ok (route_reply 200 true "Test email sent (logged)")).
Proof.
  destruct (test_routes_report_success sample_cfg (PrErr "ECONNREFUSED") "ops@example.com"
              "s" "b" "m" []) as [S [_ [F _]]].
  rewrite (surjective_pairing (test_email_route _ _ _ _ _ [])).
  rewrite S, (F "ECONNREFUSED" eq_refl eq_refl). reflexivity.
Defined.

(** ** Start-up (app.ts) *)


